(** * Verification of tools/add-openclaw-metadata.py

    A shallow embedding of the metadata injector: the string primitives
    of the interpreter it relies on, the JSON serializer, the emoji
    tables and their lookup, the frontmatter parser, the line splicer
    and the per-file and batch drivers over an explicit file store and
    output stream.

    - A Python [str] is represented by the [string] of the bytes of its
      UTF-8 encoding.  Every pattern the script searches for, every
      offset it adds and every key whose length it compares is ASCII,
      so that searching, slicing and splitting on bytes agree with the
      same operations on code points.
    - The file store is a finite map from the paths of the regular
      files below [REPO_ROOT], as lists of parts, to their text;
      [read_text] of a missing file raises, [write_text] replaces the
      text.  [glob] and [sorted] are the keys of the map that match,
      in the order of their parts.
    - The output stream is the list of the strings given to [print].
    - The [re] module is outside the script: the result of the search
      for the name line and of the identifier test are parameters of
      [process_skill] and [main].  They only decide whether a warning
      is printed. *)

From Stdlib Require Import ZArith Ascii String List Lia Bool DecimalString.
From Stdlib Require OrderedTypeEx.
From stdpp Require Import gmap strings list sorting.

Set Warnings "-register-all".
Local Open Scope nat_scope.
Local Arguments String.append : simpl nomatch.
Local Arguments Ascii.eqb : simpl never.

(** ** Characters and literals that need an escape in the source *)

Definition LF : ascii := "010"%char.
Definition DQUOTE : ascii := "034"%char.
Definition SQUOTE : ascii := "039"%char.
Definition BACKSLASH : ascii := "092"%char.

Definition nl : string := String LF EmptyString.
Definition dq : string := String DQUOTE EmptyString.

(** ** String primitives of the interpreter *)

Module Py.

(** [s.startswith(p)] *)
Fixpoint startswith (s p : string) {struct p} : bool :=
  match p with
  | EmptyString => true
  | String c p' =>
      match s with
      | EmptyString => false
      | String d s' => if Ascii.eqb c d then startswith s' p' else false
      end
  end.

(** [s[n:]] *)
Fixpoint drop (n : nat) (s : string) : string :=
  match n with
  | O => s
  | S k => match s with EmptyString => EmptyString | String _ s' => drop k s' end
  end.

(** [s[:n]] *)
Fixpoint take (n : nat) (s : string) : string :=
  match n with
  | O => EmptyString
  | S k => match s with EmptyString => EmptyString | String c s' => String c (take k s') end
  end.

(** [s[a:b]] for non-negative bounds *)
Definition slice (a b : nat) (s : string) : string := take (b - a) (drop a s).

(** [s.find(sub, start)]: the lowest index [i >= start] at which [sub]
    occurs in [s], [None] standing for [-1]. *)
Fixpoint find (sub : string) (start : nat) (s : string) : option nat :=
  match start with
  | S k =>
      match s with
      | EmptyString => None
      | String _ s' => option_map S (find sub k s')
      end
  | O =>
      if startswith s sub then Some 0
      else match s with
           | EmptyString => None
           | String _ s' => option_map S (find sub 0 s')
           end
  end.

(** [sub in s] *)
Definition contains (sub s : string) : bool :=
  match find sub 0 s with Some _ => true | None => false end.

(** [s.split(sep)] for a non-empty separator: [skip] counts the
    characters of a separator just recognised that are still to be
    passed over. *)
Fixpoint split_from (sep : string) (skip : nat) (s : string) : list string :=
  match s with
  | EmptyString => [EmptyString]
  | String c s' =>
      match skip with
      | S k => split_from sep k s'
      | O =>
          if startswith s sep
          then EmptyString :: split_from sep (String.length sep - 1) s'
          else match split_from sep 0 s' with
               | x :: xs => String c x :: xs
               | [] => [String c EmptyString]
               end
      end
  end.

Definition split (sep s : string) : list string := split_from sep 0 s.

(** [sep.join(l)] *)
Fixpoint join (sep : string) (l : list string) : string :=
  match l with
  | [] => EmptyString
  | [x] => x
  | x :: xs => x +:+ sep +:+ join sep xs
  end.

(** [s.strip(chars)] for a one-character [chars] *)
Fixpoint lstrip_char (c : ascii) (s : string) : string :=
  match s with
  | String d s' => if Ascii.eqb c d then lstrip_char c s' else s
  | EmptyString => EmptyString
  end.

Fixpoint rstrip_char (c : ascii) (s : string) : string :=
  match s with
  | String d s' =>
      match rstrip_char c s' with
      | EmptyString => if Ascii.eqb c d then EmptyString else String d EmptyString
      | r => String d r
      end
  | EmptyString => EmptyString
  end.

Definition strip_char (c : ascii) (s : string) : string :=
  rstrip_char c (lstrip_char c s).

(** [any(p(x) for x in l)] *)
Definition any {A} (p : A -> bool) (l : list A) : bool := existsb p l.

(** [str(n)] for a non-negative integer *)
Definition str_of_nat (n : nat) : string := NilZero.string_of_uint (Nat.to_uint n).

End Py.

(** [chr(cp)] as the bytes of its UTF-8 encoding *)
Definition chr (cp : N) : string :=
  let b (n : N) := String (ascii_of_N n) EmptyString in
  let cont (n : N) := b (128 + n mod 64)%N in
  if (cp <? 128)%N then b cp
  else if (cp <? 2048)%N then b (192 + cp / 64)%N +:+ cont cp
  else if (cp <? 65536)%N then b (224 + cp / 4096)%N +:+ cont (cp / 64)%N +:+ cont cp
  else b (240 + cp / 262144)%N +:+ cont (cp / 4096)%N +:+ cont (cp / 64)%N +:+ cont cp.

(** [sorted(l, key=...)]: a stable sort that compares with [<] only.
    [lt x y] is the strict comparison of the sort keys. *)
Fixpoint insert_sorted {A} (lt : A -> A -> bool) (x : A) (l : list A) : list A :=
  match l with
  | [] => [x]
  | y :: l' => if lt y x then y :: insert_sorted lt x l' else x :: y :: l'
  end.

Definition py_sorted {A} (lt : A -> A -> bool) (l : list A) : list A :=
  foldr (insert_sorted lt) [] l.

(** ** Exceptions *)

Inductive exn : Type :=
  | ValueError (msg : string)
  | IndexError (msg : string)
  | FileNotFoundError (msg : string).

Inductive result (A : Type) : Type :=
  | Ok (a : A)
  | Raise (e : exn).
Arguments Ok {A} a.
Arguments Raise {A} e.

(** [s.index(sub, start)] *)
Definition str_index (sub : string) (start : nat) (s : string) : result nat :=
  match Py.find sub start s with
  | Some i => Ok i
  | None => Raise (ValueError "substring not found")
  end.

(** ** json.dumps(..., ensure_ascii=False) on the values the script builds *)

Inductive json : Type :=
  | JStr (s : string)
  | JArr (l : list json)
  | JObj (l : list (string * json)).

Definition hex_digit (n : N) : ascii :=
  if (n <? 10)%N then ascii_of_N (48 + n) else ascii_of_N (87 + n).

(** One character of [py_encode_basestring]: the quote, the backslash
    and the control characters below U+0020 are escaped, everything
    else is emitted as it is. *)
Definition escape_char (c : ascii) : string :=
  let n := N_of_ascii c in
  let bs := String BACKSLASH EmptyString in
  if Ascii.eqb c DQUOTE then bs +:+ dq
  else if Ascii.eqb c BACKSLASH then bs +:+ bs
  else if (n =? 10)%N then bs +:+ "n"
  else if (n =? 13)%N then bs +:+ "r"
  else if (n =? 9)%N then bs +:+ "t"
  else if (n =? 8)%N then bs +:+ "b"
  else if (n =? 12)%N then bs +:+ "f"
  else if (n <? 32)%N
       then bs +:+ "u00" +:+ String (hex_digit (n / 16)) (String (hex_digit (n mod 16)) EmptyString)
  else String c EmptyString.

Fixpoint escape (s : string) : string :=
  match s with
  | EmptyString => EmptyString
  | String c s' => escape_char c +:+ escape s'
  end.

Definition encode_basestring (s : string) : string := dq +:+ escape s +:+ dq.

Fixpoint json_dumps (j : json) : string :=
  match j with
  | JStr s => encode_basestring s
  | JArr l => "[" +:+ Py.join ", " (map json_dumps l) +:+ "]"
  | JObj l =>
      "{" +:+ Py.join ", "
                (map (fun kv => encode_basestring (fst kv) +:+ ": " +:+ json_dumps (snd kv)) l)
          +:+ "}"
  end.

(** ** The tables *)

(** A dict literal, as its items in insertion order. *)
Definition dict : Type := list (string * string).

Fixpoint dict_get (d : dict) (k : string) : option string :=
  match d with
  | [] => None
  | (k', v) :: d' => if String.eqb k' k then Some v else dict_get d' k
  end.

Definition EMOJI_MAP : dict :=
  [ ("personas/engineering", chr 0x1f527);
    ("personas/data", chr 0x1f4ca);
    ("personas/devops", chr 0x2699 +:+ chr 0xfe0f);
    ("personas/claude-code", chr 0x1f916);
    ("personas/security", chr 0x1f6e1 +:+ chr 0xfe0f);
    ("personas/web", chr 0x1f310);
    ("personas/api", chr 0x1f9ea);
    ("personas/domain/eve-esi", chr 0x1f680);
    ("personas/domain/hauling-business-advisor", chr 0x1f69b);
    ("personas/domain/hauling-image-estimator", chr 0x1f69b);
    ("personas/domain/hauling-job-scheduler", chr 0x1f69b);
    ("personas/domain/hauling-lead-qualifier", chr 0x1f69b);
    ("personas/domain/hauling-quote-generator", chr 0x1f69b);
    ("personas/domain/gamedev", chr 0x1f3ae);
    ("personas/domain/tie-dye-business-coach", chr 0x1f3a8);
    ("personas/domain/apple-dev-best-practices", chr 0x1f4f1);
    ("personas/domain/mentor-linux", chr 0x1f427);
    ("personas/domain/streamlit", chr 0x1f4ca);
    ("personas/domain/strategic-planner", chr 0x1f4cb);
    ("agents/system", chr 0x1f4c1);
    ("agents/browser", chr 0x1f50d);
    ("agents/email", chr 0x2709 +:+ chr 0xfe0f);
    ("agents/integrations", chr 0x1f517);
    ("agents/orchestration", chr 0x1f9e9);
    ("agents/analysis", chr 0x1f52c);
    ("workflows", chr 0x1f4cb) ].

Definition API_EMOJI_OVERRIDES : dict :=
  [ ("api-tester", chr 0x1f9ea);
    ("database-ops", chr 0x1f5c4 +:+ chr 0xfe0f);
    ("webhook-designer", chr 0x1faa9);
    ("oauth-integrator", chr 0x1f510) ].

Definition ALL_OS : list string := ["darwin"; "linux"; "win32"].

Definition FALLBACK_EMOJI : string := chr 0x1f4e6.

(** ** get_emoji *)

(** The sort key of line 76, [-len(x[0])], compared with [<].  The keys
    of the tables are ASCII: their length in bytes is their length in
    characters. *)
Definition longer_key_first (x y : string * string) : bool :=
  (- Z.of_nat (String.length (fst x)) <? - Z.of_nat (String.length (fst y)))%Z.

(** The [for] loop of lines 76-78: the first item whose key is a prefix
    of the path. *)
Fixpoint first_prefix_match (skill_path : string) (items : dict) : option string :=
  match items with
  | [] => None
  | (prefix, emoji) :: rest =>
      if Py.startswith skill_path prefix then Some emoji
      else first_prefix_match skill_path rest
  end.

(** [get_emoji] with the two module-level tables as arguments. *)
Definition get_emoji_in (overrides emoji_map : dict) (skill_path skill_name : string) : string :=
  match dict_get overrides skill_name with
  | Some emoji => emoji
  | None =>
      match first_prefix_match skill_path (py_sorted longer_key_first emoji_map) with
      | Some emoji => emoji
      | None => FALLBACK_EMOJI
      end
  end.

Definition get_emoji : string -> string -> string :=
  get_emoji_in API_EMOJI_OVERRIDES EMOJI_MAP.

(** ** parse_frontmatter *)

Definition START_MARKER : string := Eval cbv in ("---" +:+ nl).
Definition END_MARKER : string := Eval cbv in (nl +:+ "---" +:+ nl).

Definition parse_frontmatter (content : string) : result (string * string * string) :=
  if negb (Py.startswith content START_MARKER)
  then Raise (ValueError "No YAML frontmatter found")
  else
    match str_index END_MARKER 4 content with
    | Raise e => Raise e
    | Ok end_idx =>
        let fm_text := Py.slice 4 end_idx content in
        let body := Py.drop (end_idx + 5) content in
        Ok (fm_text, body, Py.take (end_idx + 5) content)
    end.

(** ** build_metadata_line *)

Definition build_metadata_line (skill_path skill_name : string) : string :=
  let emoji := get_emoji skill_path skill_name in
  let metadata :=
    JObj [("openclaw", JObj [("emoji", JStr emoji); ("os", JArr (map JStr ALL_OS))])] in
  "metadata: " +:+ json_dumps metadata.

(** ** The splice of lines 141-169 of process_skill *)

Record loop_state : Type := LoopState {
  new_lines : list string;
  metadata_inserted : bool;
  user_invocable_inserted : bool
}.

Definition ANCHOR : string := "description:".
Definition FLAG_KEY : string := "user-invocable:".
Definition FLAG_LINE : string := "user-invocable: true".

Definition defines_flag (fm_lines : list string) : bool :=
  Py.any (fun l => Py.startswith l FLAG_KEY) fm_lines.

(** One iteration of the [for line in fm_lines] loop. *)
Definition splice_step (fm_lines : list string) (metadata_line : string) (is_persona : bool)
    (st : loop_state) (line : string) : loop_state :=
  let st1 := LoopState (new_lines st ++ [line])
               (metadata_inserted st) (user_invocable_inserted st) in
  if Py.startswith line ANCHOR && negb (metadata_inserted st1) then
    let st2 := LoopState (new_lines st1 ++ [metadata_line]) true
                 (user_invocable_inserted st1) in
    if is_persona && negb (user_invocable_inserted st2) then
      if negb (defines_flag fm_lines)
      then LoopState (new_lines st2 ++ [FLAG_LINE]) true true
      else st2
    else st2
  else st1.

(** The loop followed by the [if not metadata_inserted] block. *)
Definition splice_lines (fm_lines : list string) (metadata_line : string) (is_persona : bool)
    : list string :=
  let st := fold_left (splice_step fm_lines metadata_line is_persona) fm_lines
              (LoopState [] false false) in
  if negb (metadata_inserted st) then
    let l := new_lines st ++ [metadata_line] in
    if is_persona && negb (defines_flag fm_lines) then l ++ [FLAG_LINE] else l
  else new_lines st.

(** ** Paths, the file store and the output stream *)

(** A path below [REPO_ROOT], as the list of its parts
    ([PurePath.parts] of [skill_md_path.relative_to(REPO_ROOT)]). *)
Abbreviation path := (list string).

(** [p.parent] *)
Definition path_parent (p : path) : path := removelast p.

(** [p.name] *)
Definition path_name (p : path) : string := default EmptyString (last p).

(** [str(p)] *)
Definition path_str (p : path) : string :=
  match p with
  | [] => "."
  | _ => Py.join "/" p
  end.

(** The world the script acts on: the regular files below [REPO_ROOT]
    with their text, and what has been printed so far, one entry for
    each call of [print]. *)
Record world : Type := World {
  fs : gmap path string;
  out : list string
}.

(** Computations that read and change the world and may raise. *)
Definition M (A : Type) : Type := world -> result (A * world).

Definition ret {A} (a : A) : M A := fun w => Ok (a, w).

Definition bind {A B} (m : M A) (k : A -> M B) : M B :=
  fun w =>
    match m w with
    | Ok (a, w') => k a w'
    | Raise e => Raise e
    end.

Definition lift {A} (r : result A) : M A :=
  fun w =>
    match r with
    | Ok a => Ok (a, w)
    | Raise e => Raise e
    end.

Notation "x <- m ;; k" := (bind m (fun x => k))
  (at level 100, m at next level, right associativity).
Notation "m ;;; k" := (bind m (fun _ => k))
  (at level 100, right associativity).

(** [p.read_text()] *)
Definition read_text (p : path) : M string :=
  fun w =>
    match fs w !! p with
    | Some content => Ok (content, w)
    | None => Raise (FileNotFoundError (path_str p))
    end.

(** [p.write_text(content)] *)
Definition write_text (p : path) (content : string) : M unit :=
  fun w => Ok (tt, World (<[p := content]> (fs w)) (out w)).

(** [print(s)] *)
Definition print (s : string) : M unit :=
  fun w => Ok (tt, World (fs w) (out w ++ [s])).

Definition when (b : bool) (m : M unit) : M unit :=
  if b then m else ret tt.

(** [l[0]] *)
Definition list_first {A} (l : list A) : result A :=
  match l with
  | x :: _ => Ok x
  | [] => Raise (IndexError "list index out of range")
  end.

(** [x in l] for a list of strings *)
Definition list_contains (x : string) (l : list string) : bool :=
  existsb (String.eqb x) l.

(** ** process_skill and main *)

Definition METADATA_KEY : string := Eval cbv in (nl +:+ "metadata:").

Section Orchestrator.

(** The [re] module and the Unicode tables of [str.strip()] lie outside
    the script: what they return is a parameter of the embedding.
    [re_search_name fm_text] is [group(1)] of
    [re.search(r"^name:\s*(.+)$", fm_text, re.MULTILINE)], when there is
    a match; [openclaw_name_match s] tells whether
    [OPENCLAW_NAME_RE.match(s)] is a match. *)
Variable re_search_name : string -> option string.
Variable py_strip : string -> string.
Variable openclaw_name_match : string -> bool.

(** Line 123: the conditional expression
    ["\nmetadata:" in content.split("\n---\n")[0] if "\n---\n" in content else False]. *)
Definition already_has_metadata (content : string) : result bool :=
  if Py.contains END_MARKER content then
    match list_first (Py.split END_MARKER content) with
    | Ok first => Ok (Py.contains METADATA_KEY first)
    | Raise e => Raise e
    end
  else Ok false.

(** Lines 135-139: the warning on the name field. *)
Definition validate_name (rel_path : path) (fm_text : string) : M unit :=
  match re_search_name fm_text with
  | Some group1 =>
      let name_val := Py.strip_char SQUOTE (Py.strip_char DQUOTE (py_strip group1)) in
      when (negb (openclaw_name_match name_val))
        (print ("  WARN " +:+ path_str rel_path +:+ ": name '" +:+ name_val
                +:+ "' doesn't match OpenClaw regex"))
  | None => ret tt
  end.

(** Line 172. *)
Definition reassemble (new_lines : list string) (body : string) : string :=
  START_MARKER +:+ Py.join nl new_lines +:+ END_MARKER +:+ body.

Definition process_skill (skill_md_path : path) (dry_run verbose : bool) : M bool :=
  let rel_path := skill_md_path in
  let skill_dir := path_parent rel_path in
  let skill_path := path_str skill_dir in
  let skill_name := path_name skill_dir in
  content <- read_text skill_md_path ;;
  skip <- lift (already_has_metadata content) ;;
  if (skip : bool) then
    when verbose (print ("  SKIP " +:+ path_str rel_path +:+ " (already has metadata)")) ;;;
    ret false
  else
    match parse_frontmatter content with
    | Raise (ValueError _) | Raise (IndexError _) =>
        print ("  ERROR " +:+ path_str rel_path +:+ ": cannot parse frontmatter") ;;;
        ret false
    | Raise e => lift (Raise e)
    | Ok (fm_text, body, _) =>
        validate_name rel_path fm_text ;;;
        let fm_lines := Py.split nl fm_text in
        let metadata_line := build_metadata_line skill_path skill_name in
        let is_persona := Py.startswith skill_path "personas/" in
        let new_lines := splice_lines fm_lines metadata_line is_persona in
        let new_content := reassemble new_lines body in
        if dry_run then
          when verbose (print ("  DRY-RUN " +:+ path_str rel_path)) ;;;
          ret true
        else
          write_text skill_md_path new_content ;;;
          when verbose (print ("  OK " +:+ path_str rel_path)) ;;;
          ret true
    end.

(** [<] on paths: the lists of parts, compared as lists of strings. *)
Fixpoint path_ltb (p q : path) : bool :=
  match p, q with
  | _, [] => false
  | [], _ :: _ => true
  | a :: p', b :: q' =>
      if String.eqb a b then path_ltb p' q' else String.ltb a b
  end.

(** A path matched by [root/**/SKILL.md]. *)
Definition glob_match (root : string) (p : path) : bool :=
  match p with
  | r :: rest => String.eqb r root && bool_decide (last rest = Some "SKILL.md")
  | [] => false
  end.

(** [sorted(REPO_ROOT.glob(root + "/**/SKILL.md"))] *)
Definition sorted_glob (root : string) : M (list path) :=
  fun w =>
    Ok (py_sorted path_ltb (filter (fun p => glob_match root p = true) (map fst (map_to_list (fs w)))), w).

(** The [for skill_md in skill_files] loop of main, on the two counters. *)
Fixpoint run_files (dry_run verbose : bool) (skill_files : list path)
    (modified total : nat) : M (nat * nat) :=
  match skill_files with
  | [] => ret (modified, total)
  | skill_md :: rest =>
      let total := total + 1 in
      changed <- process_skill skill_md dry_run verbose ;;
      run_files dry_run verbose rest (if (changed : bool) then modified + 1 else modified) total
  end.

Definition summary_line (total modified : nat) : string :=
  nl +:+ "Processed " +:+ Py.str_of_nat total +:+ " skills, modified " +:+ Py.str_of_nat modified.

Definition main (argv : list string) : M Z :=
  let dry_run := list_contains "--dry-run" argv in
  let verbose := list_contains "--verbose" argv in
  when dry_run (print ("DRY RUN " +:+ chr 0x2014 +:+ " no files will be modified" +:+ nl)) ;;;
  personas <- sorted_glob "personas" ;;
  agents <- sorted_glob "agents" ;;
  workflows <- sorted_glob "workflows" ;;
  let skill_files := personas ++ agents ++ workflows in
  counts <- run_files dry_run verbose skill_files 0 0 ;;
  print (summary_line (snd counts) (fst counts)) ;;;
  ret 0%Z.

End Orchestrator.

(** ** An instance of the parameters

    The three functions on texts whose whitespace is ASCII (the
    interpreter also counts some characters beyond U+007F as
    whitespace). *)

Definition ascii_is_space (c : ascii) : bool :=
  let n := N_of_ascii c in
  ((9 <=? n) && (n <=? 13) || (28 <=? n) && (n <=? 32))%N.

(** The characters up to the end of the line. *)
Fixpoint line_of (s : string) : string :=
  match s with
  | EmptyString => EmptyString
  | String c s' => if Ascii.eqb LF c then EmptyString else String c (line_of s')
  end.

(** What follows [name:] against [\s*(.+)$]: the whitespace is taken
    greedily, and given back one character at a time while nothing but
    a newline or the end of the text follows it. *)
Fixpoint match_name_tail (s : string) : option string :=
  match s with
  | EmptyString => None
  | String c s' =>
      if ascii_is_space c then
        match match_name_tail s' with
        | Some group1 => Some group1
        | None => if Ascii.eqb LF c then None else Some (line_of s)
        end
      else Some (line_of s)
  end.

(** The search, with [at_start] telling whether [s] begins a line. *)
Fixpoint search_name_from (at_start : bool) (s : string) : option string :=
  let here :=
    if at_start && Py.startswith s "name:" then match_name_tail (Py.drop 5 s) else None in
  match here with
  | Some group1 => Some group1
  | None =>
      match s with
      | EmptyString => None
      | String c s' => search_name_from (Ascii.eqb LF c) s'
      end
  end.

Definition ascii_re_search_name (fm_text : string) : option string :=
  search_name_from true fm_text.

Fixpoint ascii_lstrip (s : string) : string :=
  match s with
  | String c s' => if ascii_is_space c then ascii_lstrip s' else s
  | EmptyString => EmptyString
  end.

Fixpoint ascii_rstrip (s : string) : string :=
  match s with
  | String c s' =>
      match ascii_rstrip s' with
      | EmptyString => if ascii_is_space c then EmptyString else String c EmptyString
      | r => String c r
      end
  | EmptyString => EmptyString
  end.

Definition ascii_strip (s : string) : string := ascii_rstrip (ascii_lstrip s).

Definition is_name_char (first : bool) (c : ascii) : bool :=
  let n := N_of_ascii c in
  ((97 <=? n) && (n <=? 122) || (48 <=? n) && (n <=? 57) || negb first && (n =? 45))%N.

Fixpoint all_name_chars (s : string) : bool :=
  match s with
  | EmptyString => true
  | String c s' => is_name_char false c && all_name_chars s'
  end.

(** [OPENCLAW_NAME_RE.match(s)] on a text with no newline. *)
Definition ascii_openclaw_name_match (s : string) : bool :=
  match s with
  | EmptyString => false
  | String c s' => is_name_char true c && all_name_chars s'
  end.

(** ** The vocabulary of the properties *)

(** [sub] occurs in [s] at offset [i]. *)
Definition occurs_at (sub : string) (i : nat) (s : string) : Prop :=
  i <= String.length s /\ Py.startswith (Py.drop i s) sub = true.

(** No newline in a string. *)
Fixpoint lf_free (s : string) : bool :=
  match s with
  | EmptyString => true
  | String c s' => negb (Ascii.eqb LF c) && lf_free s'
  end.

(** A line [---] other than the first one, in the text cut at its
    newlines. *)
Definition marker_line_after_start (content : string) : Prop :=
  exists i, 0 < i /\ Py.split nl content !! i = Some "---".

(** The order the sort leaves between an element and the ones after
    it: no later element is strictly smaller. *)
Definition not_after {A} (lt : A -> A -> bool) (x y : A) : Prop := lt y x = false.

(** The flag line, when it is due: the document is a persona and no
    line of the block defines the field. *)
Definition flag_lines (fm_lines : list string) (is_persona : bool) : list string :=
  if is_persona && negb (defines_flag fm_lines) then [FLAG_LINE] else [].

Definition is_anchor (l : string) : bool := Py.startswith l ANCHOR.

(** The serialized metadata line, spelled out for an emoji that needs
    no escape. *)
Definition quoted (s : string) : string := dq +:+ s +:+ dq.

Definition metadata_line_text (emoji : string) : string :=
  "metadata: {" +:+ quoted "openclaw" +:+ ": {" +:+ quoted "emoji" +:+ ": " +:+ quoted emoji
  +:+ ", " +:+ quoted "os" +:+ ": [" +:+ quoted "darwin" +:+ ", " +:+ quoted "linux" +:+ ", "
  +:+ quoted "win32" +:+ "]}}".

(** What line 123 computes: the text before the first end marker,
    searched from offset 0, holds a newline followed by [metadata:]. *)
Definition skip_check (content : string) : bool :=
  match Py.find END_MARKER 0 content with
  | Some i => Py.contains METADATA_KEY (Py.take i content)
  | None => false
  end.

(** What [process_skill] derives from the path of the file. *)
Definition skill_path_of (f : path) : string := path_str (path_parent f).
Definition skill_name_of (f : path) : string := path_name (path_parent f).
Definition is_persona_of (f : path) : bool := Py.startswith (skill_path_of f) "personas/".

(** The block of the edited document, as lines, and the text line 172
    builds from it and the body. *)
Definition new_lines_of (f : path) (fm_text : string) : list string :=
  splice_lines (Py.split nl fm_text)
    (build_metadata_line (skill_path_of f) (skill_name_of f)) (is_persona_of f).

Definition new_content_of (f : path) (fm_text body : string) : string :=
  reassemble
    (splice_lines (Py.split nl fm_text)
       (build_metadata_line (skill_path_of f) (skill_name_of f)) (is_persona_of f))
    body.

(** The three ways a run on an existing file can go. *)
Inductive outcome : Type :=
  | Skipped
  | Unparsed
  | Edited (new_content : string).

Definition outcome_of (f : path) (content : string) : outcome :=
  if skip_check content then Skipped
  else match parse_frontmatter content with
       | Ok (fm_text, body, _) => Edited (new_content_of f fm_text body)
       | Raise _ => Unparsed
       end.

(** Whether a run reports a change, the file store it leaves, and the
    text of the file after a run in write mode. *)
Definition changed (f : path) (content : string) : bool :=
  match outcome_of f content with Edited _ => true | _ => false end.

Definition store_after (f : path) (dry_run : bool) (content : string)
    (files : gmap path string) : gmap path string :=
  match outcome_of f content with
  | Edited new_content => if dry_run then files else <[f := new_content]> files
  | _ => files
  end.

Definition next_content (f : path) (content : string) : string :=
  match outcome_of f content with
  | Edited new_content => new_content
  | _ => content
  end.

(** The status lines. *)
Definition skip_report (f : path) : string :=
  "  SKIP " +:+ path_str f +:+ " (already has metadata)".
Definition error_report (f : path) : string :=
  "  ERROR " +:+ path_str f +:+ ": cannot parse frontmatter".
Definition dry_run_report (f : path) : string := "  DRY-RUN " +:+ path_str f.
Definition ok_report (f : path) : string := "  OK " +:+ path_str f.

(** The files a root contributes, before they are sorted, and the list
    [skill_files] of main. *)
Definition glob_files (root : string) (files : gmap path string) : list path :=
  filter (fun p => glob_match root p = true) (map fst (map_to_list files)).

Definition discovered (files : gmap path string) : list path :=
  py_sorted path_ltb (glob_files "personas" files)
  ++ py_sorted path_ltb (glob_files "agents" files)
  ++ py_sorted path_ltb (glob_files "workflows" files).

(** The number of lines [user-invocable: true] among lines, and in a
    text. *)
Definition count_flag (lines : list string) : nat :=
  length (filter (fun l => l = FLAG_LINE) lines).

Definition flag_count (content : string) : nat := count_flag (Py.split nl content).

(** Every block the text parses into has a line that defines the flag. *)
Definition flag_defined (content : string) : Prop :=
  forall fm_text body raw,
    parse_frontmatter content = Ok (fm_text, body, raw) ->
    defines_flag (Py.split nl fm_text) = true.

(** ** Documents and paths of the examples *)

Definition skill_file : path := ["personas"; "engineering"; "my-skill"; "SKILL.md"].

(** The store that holds one file, and nothing printed yet. *)
Definition world_of (content : string) : world := World {[ skill_file := content ]} [].

(** The document of the scenario of the specification, its block, its
    body, and the document after the edit, for the emoji [X]. *)
Definition doc_plain : string :=
  Eval cbv in
    Py.join nl ["---"; "name: my-skill"; "description: does a thing"; "---"; "Body text.";
                EmptyString].

Definition doc_plain_fm : string :=
  Eval cbv in Py.join nl ["name: my-skill"; "description: does a thing"].

Definition doc_plain_body : string := Eval cbv in ("Body text." +:+ nl).

Definition doc_plain_edited (X : string) : string :=
  START_MARKER
  +:+ Py.join nl
        [ "name: my-skill";
          "description: does a thing";
          "metadata: {" +:+ quoted "openclaw" +:+ ": {" +:+ quoted "emoji" +:+ ": " +:+ quoted X
            +:+ ", " +:+ quoted "os" +:+ ": [" +:+ quoted "darwin" +:+ ", " +:+ quoted "linux"
            +:+ ", " +:+ quoted "win32" +:+ "]}}";
          "user-invocable: true" ]
  +:+ END_MARKER +:+ doc_plain_body.

Definition scenario_world : world := world_of doc_plain.

(** The scenario after one verbose run in write mode. *)
Definition scenario_world_edited : world :=
  World (<[skill_file := doc_plain_edited (chr 0x1f527)]> (fs scenario_world))
        [ok_report skill_file].

(** A document whose block is empty, and one whose closing marker is
    the last line and has no newline after it. *)
Definition doc_empty_block : string :=
  Eval cbv in Py.join nl ["---"; "---"; "body"].

Definition doc_unterminated_marker : string :=
  Eval cbv in Py.join nl ["---"; "key: v"; "---"].

(** A document whose block begins with a marker line, and what one
    and two runs in write mode leave of it. *)
Definition engineering_line : string := metadata_line_text (chr 0x1f527).

Definition doc_marker_first : string :=
  Py.join nl ["---"; "---"; "name: x"; "---"; "body"].

Definition doc_marker_first_once : string :=
  Py.join nl ["---"; "---"; "name: x"; engineering_line; "user-invocable: true"; "---"; "body"].

Definition doc_marker_first_twice : string :=
  Py.join nl ["---"; "---"; "name: x"; engineering_line; "user-invocable: true";
              engineering_line; "---"; "body"].

(** A text with no start marker that passes the skip test. *)
Definition doc_no_start : string :=
  Py.join nl ["# notes"; "metadata: none"; "---"; "text"; EmptyString].

(** A persona document that has a metadata line and no flag. *)
Definition doc_with_metadata : string :=
  Py.join nl ["---"; "description: d"; "metadata: {}"; "---"; "body"; EmptyString].

(** ** The vocabulary of the further properties *)

(** The number of lines that begin with [metadata:]. *)
Definition count_metadata (lines : list string) : nat :=
  length (filter (fun l => Py.startswith l "metadata:" = true) lines).

(** Whether a run on the file would report a change, from the store. *)
Definition would_change (files : gmap path string) (f : path) : bool :=
  match files !! f with
  | Some content => changed f content
  | None => false
  end.

(** The three roots of main, and the paths its patterns match. *)
Definition ROOTS : list string := ["personas"; "agents"; "workflows"].

Definition is_skill_file (f : path) : Prop :=
  exists root rest, f = root :: rest /\ root ∈ ROOTS /\ last rest = Some "SKILL.md".

(** ** What a run prints, and repeated runs *)

Section Reports.

Variable re_search_name : string -> option string.
Variable py_strip : string -> string.
Variable openclaw_name_match : string -> bool.

(** What [validate_name] prints. *)
Definition warnings (f : path) (content : string) : list string :=
  match parse_frontmatter content with
  | Ok (fm_text, _, _) =>
      match re_search_name fm_text with
      | Some group1 =>
          let name_val := Py.strip_char SQUOTE (Py.strip_char DQUOTE (py_strip group1)) in
          if negb (openclaw_name_match name_val)
          then ["  WARN " +:+ path_str f +:+ ": name '" +:+ name_val
                +:+ "' doesn't match OpenClaw regex"]
          else []
      | None => []
      end
  | Raise _ => []
  end.

(** What a run prints, by outcome. *)
Definition report (f : path) (dry_run verbose : bool) (content : string) : list string :=
  match outcome_of f content with
  | Skipped => if verbose then [skip_report f] else []
  | Unparsed => [error_report f]
  | Edited _ =>
      warnings f content
      ++ (if verbose then [if dry_run then dry_run_report f else ok_report f] else [])
  end.

(** [n] runs of [process_skill] in write mode on one file. *)
Fixpoint run_n (n : nat) (f : path) (verbose : bool) : M unit :=
  match n with
  | O => ret tt
  | S k =>
      process_skill re_search_name py_strip openclaw_name_match f false verbose ;;;
      run_n k f verbose
  end.

End Reports.

Abbreviation process_skill_ascii :=
  (process_skill ascii_re_search_name ascii_strip ascii_openclaw_name_match).
Abbreviation run_n_ascii :=
  (run_n ascii_re_search_name ascii_strip ascii_openclaw_name_match).
Abbreviation main_ascii :=
  (main ascii_re_search_name ascii_strip ascii_openclaw_name_match).

(** * Properties *)

(** ** Strings: append, take, drop *)

Section StringFacts.

Implicit Types (s t u p sub : string) (c d : ascii) (i j k n : nat).

Lemma str_app_nil_r s : s +:+ EmptyString = s.
Proof. induction s as [|c s IH]; simpl; [done | by rewrite IH]. Qed.

Lemma str_app_assoc s t u : (s +:+ t) +:+ u = s +:+ t +:+ u.
Proof. induction s as [|c s IH]; simpl; [done | by rewrite IH]. Qed.

Lemma str_length_app s t : String.length (s +:+ t) = String.length s + String.length t.
Proof. induction s as [|c s IH]; simpl; [done | by rewrite IH]. Qed.

Lemma take_drop n s : Py.take n s +:+ Py.drop n s = s.
Proof.
  revert s; induction n as [|n IH]; intros [|c s]; simpl; try done.
  by rewrite IH.
Qed.

Lemma take_app_length s t : Py.take (String.length s) (s +:+ t) = s.
Proof. induction s as [|c s IH]; simpl; [done | by rewrite IH]. Qed.

Lemma drop_app_length s t : Py.drop (String.length s) (s +:+ t) = t.
Proof. induction s as [|c s IH]; simpl; done. Qed.

Lemma drop_app_plus s t n : Py.drop (String.length s + n) (s +:+ t) = Py.drop n t.
Proof. induction s as [|c s IH]; simpl; done. Qed.

Lemma drop_drop n k s : Py.drop k (Py.drop n s) = Py.drop (n + k) s.
Proof.
  revert s; induction n as [|n IH]; intros s; simpl; [done |].
  destruct s as [|c s]; [by destruct k | apply IH].
Qed.

Lemma length_drop n s : String.length (Py.drop n s) = String.length s - n.
Proof.
  revert s; induction n as [|n IH]; intros [|c s]; simpl; try done; try lia.
Qed.

(** ** startswith *)

Lemma startswith_app p s : Py.startswith (p +:+ s) p = true.
Proof. induction p as [|c p IH]; simpl; [done | by rewrite Ascii.eqb_refl]. Qed.

Lemma startswith_inv s p : Py.startswith s p = true -> s = p +:+ Py.drop (String.length p) s.
Proof.
  revert s; induction p as [|c p IH]; intros s; simpl; [done |].
  destruct s as [|d s]; [done |].
  destruct (Ascii.eqb_spec c d) as [->|]; [| done].
  intros H; f_equal; by apply IH.
Qed.

Lemma startswith_take s p : Py.startswith s p = true -> Py.take (String.length p) s = p.
Proof.
  intros H; rewrite (startswith_inv _ _ H) at 1; apply take_app_length.
Qed.

Lemma startswith_empty p : Py.startswith EmptyString p = true -> p = EmptyString.
Proof. by destruct p. Qed.

(** ** find *)

Lemma occurs_at_cons sub i c s : occurs_at sub (S i) (String c s) <-> occurs_at sub i s.
Proof. unfold occurs_at; simpl; intuition lia. Qed.

Lemma occurs_at_0 sub s : occurs_at sub 0 s <-> Py.startswith s sub = true.
Proof. unfold occurs_at; simpl; intuition lia. Qed.

Lemma find_sound sub k s i :
  Py.find sub k s = Some i ->
  k <= i /\ occurs_at sub i s /\ forall j, k <= j < i -> ~ occurs_at sub j s.
Proof.
  revert k i; induction s as [|c s IH]; intros k i; destruct k as [|k]; simpl.
  - destruct (Py.startswith EmptyString sub) eqn:E; [| done].
    intros [= <-]. split; [lia |]. split; [by apply occurs_at_0 | intros; lia].
  - done.
  - destruct (Py.startswith (String c s) sub) eqn:E.
    + intros [= <-]. split; [lia |]. split; [by apply occurs_at_0 | intros; lia].
    + destruct (Py.find sub 0 s) as [m|] eqn:F; simpl; [| done].
      intros [= <-]. apply IH in F as (_ & Hocc & Hmin).
      split; [lia |]. split; [by apply occurs_at_cons |].
      intros [|j] Hj; [rewrite occurs_at_0; congruence |].
      rewrite occurs_at_cons; apply Hmin; lia.
  - destruct (Py.find sub k s) as [m|] eqn:F; simpl; [| done].
    intros [= <-]. apply IH in F as (Hk & Hocc & Hmin).
    split; [lia |]. split; [by apply occurs_at_cons |].
    intros [|j] Hj; [lia |]. rewrite occurs_at_cons; apply Hmin; lia.
Qed.

Lemma find_complete sub k s j :
  k <= j -> occurs_at sub j s -> exists i, Py.find sub k s = Some i /\ i <= j.
Proof.
  revert k j; induction s as [|c s IH]; intros k j Hk Hocc.
  - destruct Hocc as [Hj Hs]; simpl in Hj.
    assert (j = 0) as -> by lia. assert (k = 0) as -> by lia.
    simpl in *. rewrite Hs. by exists 0.
  - destruct k as [|k]; simpl.
    + destruct (Py.startswith (String c s) sub) eqn:E; [exists 0; split; [done | lia] |].
      destruct j as [|j]; [apply occurs_at_0 in Hocc; congruence |].
      apply occurs_at_cons in Hocc.
      destruct (IH 0 j) as (i & -> & Hi); [lia | done |].
      exists (S i); split; [done | lia].
    + destruct j as [|j]; [lia |].
      apply occurs_at_cons in Hocc.
      destruct (IH k j) as (i & -> & Hi); [lia | done |].
      exists (S i); split; [done | lia].
Qed.

Lemma find_Some sub k s i :
  Py.find sub k s = Some i <->
  k <= i /\ occurs_at sub i s /\ forall j, k <= j < i -> ~ occurs_at sub j s.
Proof.
  split; [apply find_sound |].
  intros (Hk & Hocc & Hmin).
  destruct (find_complete sub k s i Hk Hocc) as (m & F & Hm).
  destruct (find_sound _ _ _ _ F) as (Hkm & Hoccm & _).
  destruct (decide (m = i)) as [->|Hne]; [done |].
  exfalso; apply (Hmin m); [lia | done].
Qed.

Lemma find_None sub k s :
  Py.find sub k s = None <-> forall j, k <= j -> ~ occurs_at sub j s.
Proof.
  split.
  - intros F j Hj Hocc.
    destruct (find_complete sub k s j Hj Hocc) as (i & F' & _); congruence.
  - intros H. destruct (Py.find sub k s) as [i|] eqn:F; [| done].
    apply find_sound in F as (Hk & Hocc & _). by destruct (H i Hk).
Qed.

(** ** Lines: split and join on the newline *)

Lemma split_nl_String c s :
  Py.split nl (String c s) =
    if Ascii.eqb LF c then EmptyString :: Py.split nl s
    else match Py.split nl s with
         | x :: xs => String c x :: xs
         | [] => [String c EmptyString]
         end.
Proof. unfold Py.split, nl; simpl. by destruct (Ascii.eqb LF c). Qed.

Lemma split_ne sep k s : Py.split_from sep k s <> [].
Proof.
  revert k; induction s as [|c s IH]; intros k; simpl; [done |].
  destruct k; [| apply IH].
  destruct (Py.startswith _ _); [done |].
  by destruct (Py.split_from sep 0 s).
Qed.

Lemma split_nl_lf_free l : lf_free l = true -> Py.split nl l = [l].
Proof.
  induction l as [|c l IH]; [done |]; simpl.
  intros [Hc Hl]%andb_prop. rewrite split_nl_String.
  destruct (Ascii.eqb LF c); [done |]. by rewrite IH.
Qed.

Lemma split_nl_app a b : Py.split nl (a +:+ nl +:+ b) = Py.split nl a ++ Py.split nl b.
Proof.
  induction a as [|c a IH].
  - change (EmptyString +:+ nl +:+ b) with (String LF b).
    by rewrite split_nl_String, Ascii.eqb_refl.
  - change (String c a +:+ nl +:+ b) with (String c (a +:+ nl +:+ b)).
    rewrite !split_nl_String, IH.
    destruct (Ascii.eqb LF c); [done |].
    destruct (Py.split nl a) as [|x xs] eqn:E; [by destruct (split_ne nl 0 a) | done].
Qed.

Lemma split_nl_Forall s : Forall (fun l => lf_free l = true) (Py.split nl s).
Proof.
  induction s as [|c s IH]; [by repeat constructor |].
  rewrite split_nl_String. destruct (Ascii.eqb LF c) eqn:E; [by constructor |].
  destruct (Py.split nl s) as [|x xs]; [by repeat constructor; simpl; rewrite E |].
  inversion IH; subst. constructor; [simpl; by rewrite E | done].
Qed.

Lemma join_cons sep x y l : Py.join sep (x :: y :: l) = x +:+ sep +:+ Py.join sep (y :: l).
Proof. done. Qed.

Lemma join_split_nl s : Py.join nl (Py.split nl s) = s.
Proof.
  induction s as [|c s IH]; [done |].
  rewrite split_nl_String. destruct (Ascii.eqb_spec LF c) as [<-|Hc].
  - destruct (Py.split nl s) as [|x xs] eqn:E; [by destruct (split_ne nl 0 s) |].
    rewrite join_cons, IH. done.
  - destruct (Py.split nl s) as [|x xs] eqn:E; [by destruct (split_ne nl 0 s) |].
    destruct xs as [|y ys]; simpl in *; by rewrite IH.
Qed.

Lemma split_join_nl L :
  L <> [] -> Forall (fun l => lf_free l = true) L -> Py.split nl (Py.join nl L) = L.
Proof.
  induction L as [|x L IH]; [done |]. intros _ HL. inversion HL as [|? ? Hx HL']; subst.
  destruct L as [|y L]; [by apply split_nl_lf_free |].
  rewrite join_cons, split_nl_app, IH, split_nl_lf_free; done.
Qed.

Lemma join_app_nl L1 L2 :
  L1 <> [] -> L2 <> [] -> Py.join nl (L1 ++ L2) = Py.join nl L1 +:+ nl +:+ Py.join nl L2.
Proof.
  induction L1 as [|x L1 IH]; [done |]. intros _ H2.
  destruct L1 as [|y L1].
  - destruct L2 as [|z L2]; [done |]. done.
  - change ((x :: y :: L1) ++ L2) with (x :: y :: (L1 ++ L2)).
    rewrite !join_cons. change (y :: L1 ++ L2) with ((y :: L1) ++ L2).
    rewrite IH by done. by rewrite !str_app_assoc.
Qed.

End StringFacts.

(** ** The parser *)

Lemma length_take n s : String.length (Py.take n s) = Nat.min n (String.length s).
Proof.
  revert s; induction n as [|n IH]; intros [|c s]; simpl; try done.
  by rewrite IH.
Qed.

Lemma parse_frontmatter_Ok content fm_text body raw :
  parse_frontmatter content = Ok (fm_text, body, raw) <->
  exists end_idx,
    Py.startswith content START_MARKER = true
    /\ Py.find END_MARKER 4 content = Some end_idx
    /\ fm_text = Py.slice 4 end_idx content
    /\ body = Py.drop (end_idx + 5) content
    /\ raw = Py.take (end_idx + 5) content.
Proof.
  unfold parse_frontmatter, str_index.
  destruct (Py.startswith content START_MARKER); simpl.
  - destruct (Py.find END_MARKER 4 content) as [e|].
    + split; [intros [= <- <- <-]; by exists e | intros (e' & _ & [= <-] & -> & -> & ->); done].
    + split; [done | intros (e' & _ & [=] & _)].
  - split; [done | intros (e' & [=] & _)].
Qed.

Lemma parse_frontmatter_Raise content e :
  parse_frontmatter content = Raise e <->
  (Py.startswith content START_MARKER = false /\ e = ValueError "No YAML frontmatter found")
  \/ (Py.startswith content START_MARKER = true /\ Py.find END_MARKER 4 content = None
      /\ e = ValueError "substring not found").
Proof.
  unfold parse_frontmatter, str_index.
  destruct (Py.startswith content START_MARKER); simpl.
  - destruct (Py.find END_MARKER 4 content) as [i|].
    + split; [done | intros [[[=] _]|(_ & [=] & _)]].
    + split; [intros [= <-]; by right | intros [[[=] _]|(_ & _ & ->)]; done].
  - split; [intros [= <-]; by left | intros [[_ ->]|([=] & _)]; done].
Qed.

(** The text is the start marker, the block, the end marker and the
    body, in this order. *)
Lemma parse_frontmatter_shape content fm_text body raw :
  parse_frontmatter content = Ok (fm_text, body, raw) ->
  content = START_MARKER +:+ fm_text +:+ END_MARKER +:+ body
  /\ raw = START_MARKER +:+ fm_text +:+ END_MARKER
  /\ Py.find END_MARKER 4 content = Some (4 + String.length fm_text).
Proof.
  intros (e & Hs & Hf & -> & -> & ->)%parse_frontmatter_Ok.
  destruct (find_sound _ _ _ _ Hf) as (He & [Hlen Hocc] & _).
  unfold Py.slice.
  assert (String.length (Py.take (e - 4) (Py.drop 4 content)) = e - 4) as Hfm.
  { rewrite length_take, length_drop. lia. }
  assert (content = START_MARKER +:+ Py.take (e - 4) (Py.drop 4 content)
                      +:+ END_MARKER +:+ Py.drop (e + 5) content) as Hc.
  { rewrite <- (take_drop 4 content) at 1.
    rewrite (startswith_take _ _ Hs : Py.take 4 content = START_MARKER). f_equal.
    rewrite <- (take_drop (e - 4) (Py.drop 4 content)) at 1. f_equal.
    rewrite drop_drop. replace (4 + (e - 4)) with e by lia.
    rewrite (startswith_inv _ _ Hocc) at 1. f_equal.
    rewrite drop_drop. done. }
  split; [done |]. split.
  - rewrite Hc at 1. rewrite <- !str_app_assoc.
    replace (e + 5) with (String.length ((START_MARKER +:+ Py.take (e - 4) (Py.drop 4 content))
                                          +:+ END_MARKER)).
    + apply take_app_length.
    + rewrite !str_length_app, Hfm. simpl. lia.
  - rewrite Hfm, Hf. f_equal; lia.
Qed.

Lemma reassemble_lines fm_text body :
  Py.split nl (START_MARKER +:+ fm_text +:+ END_MARKER +:+ body)
  = "---" :: Py.split nl fm_text ++ "---" :: Py.split nl body.
Proof.
  change (START_MARKER +:+ fm_text +:+ END_MARKER +:+ body)
    with ("---" +:+ nl +:+ (fm_text +:+ nl +:+ ("---" +:+ nl +:+ body))).
  by rewrite !split_nl_app.
Qed.

Lemma parse_frontmatter_total content :
  (exists r, parse_frontmatter content = Ok r)
  \/ (exists msg, parse_frontmatter content = Raise (ValueError msg)).
Proof.
  destruct (parse_frontmatter content) as [r|e] eqn:E; [left; by exists r | right].
  apply parse_frontmatter_Raise in E as [[_ ->]|(_ & _ & ->)]; by eexists.
Qed.

(** C3. Whenever [parse_frontmatter] succeeds, the start marker, the
    returned block, the five-character end marker and the returned body
    concatenate to the original text, and the third component is the
    text up to and including the end marker, so that it is followed in
    the text by the body alone. *)
Theorem parse_frontmatter_roundtrip content fm_text body raw :
  parse_frontmatter content = Ok (fm_text, body, raw) ->
  START_MARKER +:+ fm_text +:+ END_MARKER +:+ body = content
  /\ raw = START_MARKER +:+ fm_text +:+ END_MARKER
  /\ raw = Py.take (String.length raw) content
  /\ raw +:+ body = content.
Proof.
  intros H. destruct (parse_frontmatter_shape _ _ _ _ H) as (Hc & Hr & _).
  assert (raw +:+ body = content) as Hrb.
  { rewrite Hr, Hc. by rewrite !str_app_assoc. }
  split; [done |]. split; [done |]. split; [| done].
  transitivity (Py.take (String.length raw) (raw +:+ body)).
  - symmetry; apply take_app_length.
  - by rewrite Hrb.
Qed.

Lemma parse_frontmatter_roundtrip_witness :
  let fm_text := "name: my-skill" +:+ nl +:+ "description: does a thing" in
  let body := "Body text." +:+ nl in
  let raw := Py.take 49 doc_plain in
  START_MARKER +:+ fm_text +:+ END_MARKER +:+ body = doc_plain
  /\ raw = START_MARKER +:+ fm_text +:+ END_MARKER
  /\ raw = Py.take (String.length raw) doc_plain
  /\ raw +:+ body = doc_plain.
Proof.
  apply (parse_frontmatter_roundtrip doc_plain
           ("name: my-skill" +:+ nl +:+ "description: does a thing")
           ("Body text." +:+ nl) (Py.take 49 doc_plain)).
  reflexivity.
Defined.

(** C6, as amended. [parse_frontmatter] raises exactly when the text
    does not begin with the start marker or the five characters
    newline, three dashes, newline occur at no offset from 4 on; what it
    raises is a [ValueError]; on every other text it succeeds; and a
    text with no line [---] after its first line is among those on
    which it raises. *)
Theorem parse_frontmatter_raises_iff content :
  ((exists e, parse_frontmatter content = Raise e) <->
   (Py.startswith content START_MARKER = false
    \/ forall j, 4 <= j -> ~ occurs_at END_MARKER j content))
  /\ (forall e, parse_frontmatter content = Raise e -> exists msg, e = ValueError msg)
  /\ (Py.startswith content START_MARKER = true ->
      (exists j, 4 <= j /\ occurs_at END_MARKER j content) ->
      exists r, parse_frontmatter content = Ok r)
  /\ (~ marker_line_after_start content -> exists e, parse_frontmatter content = Raise e).
Proof.
  split; [| split; [| split]].
  - split.
    + intros [e [[H _]|(_ & H & _)]%parse_frontmatter_Raise]; [by left | right].
      by apply find_None.
    + intros [H|H].
      * eexists. apply parse_frontmatter_Raise. left; eauto.
      * destruct (Py.startswith content START_MARKER) eqn:E.
        -- eexists. apply parse_frontmatter_Raise. right. by rewrite find_None.
        -- eexists. apply parse_frontmatter_Raise. left; eauto.
  - intros e [[_ ->]|(_ & _ & ->)]%parse_frontmatter_Raise; by eexists.
  - intros Hs (j & Hj & Hocc).
    destruct (find_complete _ _ _ _ Hj Hocc) as (i & Hf & _).
    eexists. apply parse_frontmatter_Ok. exists i. eauto.
  - intros Hno. destruct (parse_frontmatter content) as [[[fm body] raw]|e] eqn:E; [| by exists e].
    destruct Hno. apply parse_frontmatter_shape in E as (-> & _ & _).
    exists (S (length (Py.split nl fm))). split; [lia |].
    rewrite reassemble_lines. simpl. by rewrite list_lookup_middle.
Qed.

Lemma parse_frontmatter_raises_iff_witness :
  exists r, parse_frontmatter doc_plain = Ok r.
Proof.
  apply (proj1 (proj2 (proj2 (parse_frontmatter_raises_iff doc_plain)))).
  - reflexivity.
  - exists 44. split; [lia | split; [simpl; lia | reflexivity]].
Defined.

(** C6, as stated, fails on a document with an empty block: the text
    begins with the start marker and its second line is a marker line,
    yet the parser raises. *)
Lemma parse_frontmatter_raises_counterexample :
  Py.startswith doc_empty_block START_MARKER = true
  /\ marker_line_after_start doc_empty_block
  /\ (exists j, 4 <= j /\ Py.drop j doc_empty_block = "---" +:+ nl +:+ "body")
  /\ parse_frontmatter doc_empty_block = Raise (ValueError "substring not found")
  /\ ~ ((exists e, parse_frontmatter doc_empty_block = Raise e) <->
        (Py.startswith doc_empty_block START_MARKER = false
         \/ ~ marker_line_after_start doc_empty_block)).
Proof.
  assert (marker_line_after_start doc_empty_block) as Hline
    by (exists 1; split; [lia | reflexivity]).
  split; [reflexivity |]. split; [done |].
  split; [exists 4; split; [lia | reflexivity] |]. split; [reflexivity |].
  intros [H _]. destruct H as [H|H]; [by eexists | discriminate H | by apply H].
Qed.

(** C10. The end marker is searched as the five characters newline,
    three dashes, newline from offset 4 on: the parser raises on a
    document whose block is empty (the only occurrence is at offset 3)
    and on a document whose closing marker is the last line and has no
    newline after it (no occurrence at all), although each has a marker
    line after its first line. *)
Theorem parse_frontmatter_edge_cases :
  parse_frontmatter doc_empty_block = Raise (ValueError "substring not found")
  /\ parse_frontmatter doc_unterminated_marker = Raise (ValueError "substring not found")
  /\ Py.split nl doc_empty_block = ["---"; "---"; "body"]
  /\ Py.split nl doc_unterminated_marker = ["---"; "key: v"; "---"]
  /\ marker_line_after_start doc_empty_block
  /\ marker_line_after_start doc_unterminated_marker
  /\ Py.find END_MARKER 0 doc_empty_block = Some 3
  /\ Py.find END_MARKER 4 doc_empty_block = None
  /\ Py.find END_MARKER 0 doc_unterminated_marker = None.
Proof.
  repeat split; try reflexivity.
  - exists 1; split; [lia | reflexivity].
  - exists 2; split; [lia | reflexivity].
Qed.

(** ** get_emoji *)

Section SortedFacts.

Context {A : Type} (lt : A -> A -> bool).

Lemma elem_of_insert_sorted x a l : x ∈ insert_sorted lt a l <-> x = a \/ x ∈ l.
Proof.
  induction l as [|y l IH]; simpl.
  - rewrite list_elem_of_singleton, elem_of_nil. tauto.
  - destruct (lt y a); rewrite !elem_of_cons; [rewrite IH |]; tauto.
Qed.

Lemma elem_of_py_sorted x l : x ∈ py_sorted lt l <-> x ∈ l.
Proof.
  induction l as [|a l IH]; simpl; [done |].
  rewrite elem_of_insert_sorted, IH, elem_of_cons. done.
Qed.

Hypothesis lt_asym : forall x y, lt x y = true -> lt y x = false.
Hypothesis lt_neg_trans : forall x y z, lt y x = false -> lt z y = false -> lt z x = false.

Lemma insert_sorted_sorted a l :
  StronglySorted (not_after lt) l -> StronglySorted (not_after lt) (insert_sorted lt a l).
Proof.
  induction 1 as [|y l Hl IH Hy]; simpl; [repeat constructor |].
  destruct (lt y a) eqn:E.
  - constructor; [done |]. apply Forall_forall. intros z Hz.
    apply elem_of_insert_sorted in Hz as [->|Hz].
    + by apply lt_asym.
    + rewrite Forall_forall in Hy. by apply Hy.
  - constructor; [by constructor |]. constructor; [done |].
    rewrite Forall_forall in Hy |- *. intros z Hz.
    unfold not_after. apply (lt_neg_trans a y z); [done | by apply Hy].
Qed.

Lemma py_sorted_sorted l : StronglySorted (not_after lt) (py_sorted lt l).
Proof.
  induction l as [|a l IH]; simpl; [constructor | by apply insert_sorted_sorted].
Qed.

End SortedFacts.

Lemma longer_key_first_spec x y :
  longer_key_first x y = true <-> String.length (fst y) < String.length (fst x).
Proof. unfold longer_key_first. rewrite Z.ltb_lt. lia. Qed.

Lemma longer_key_first_false x y :
  longer_key_first x y = false <-> String.length (fst x) <= String.length (fst y).
Proof. unfold longer_key_first. rewrite Z.ltb_ge. lia. Qed.

Lemma StronglySorted_mono {A} (R R' : A -> A -> Prop) l :
  (forall x y, R x y -> R' x y) -> StronglySorted R l -> StronglySorted R' l.
Proof.
  intros HR. induction 1 as [|x l Hl IH Hx]; constructor; [done |].
  eapply Forall_impl; [apply Hx | apply HR].
Qed.

Lemma sorted_items_descending (d : dict) :
  StronglySorted (fun x y => String.length (fst y) <= String.length (fst x))
    (py_sorted longer_key_first d).
Proof.
  apply (StronglySorted_mono (not_after longer_key_first)).
  - intros x y H. unfold not_after in H. by apply longer_key_first_false in H.
  - apply py_sorted_sorted.
    + intros x y. rewrite longer_key_first_spec, longer_key_first_false. lia.
    + intros x y z. rewrite !longer_key_first_false. lia.
Qed.

Lemma first_prefix_match_None skill_path (items : dict) :
  first_prefix_match skill_path items = None <->
  forall k v, (k, v) ∈ items -> Py.startswith skill_path k = false.
Proof.
  induction items as [|[k0 v0] items IH]; simpl.
  - split; [intros _ k v H; by apply elem_of_nil in H | done].
  - destruct (Py.startswith skill_path k0) eqn:E.
    + split; [done |]. intros H. rewrite (H k0 v0) in E; [done | left].
    + rewrite IH. split.
      * intros H k v [[= -> ->]|Hin]%elem_of_cons; eauto.
      * intros H k v Hin. apply (H k v). by right.
Qed.

Lemma first_prefix_match_Some skill_path (items : dict) emoji :
  StronglySorted (fun x y => String.length (fst y) <= String.length (fst x)) items ->
  first_prefix_match skill_path items = Some emoji ->
  exists prefix,
    (prefix, emoji) ∈ items
    /\ Py.startswith skill_path prefix = true
    /\ forall k v, (k, v) ∈ items -> Py.startswith skill_path k = true ->
                   String.length k <= String.length prefix.
Proof.
  induction 1 as [|[k0 v0] items Hitems IH Hhd]; simpl; [done |].
  destruct (Py.startswith skill_path k0) eqn:E.
  - intros [= <-]. exists k0. split; [left |]. split; [done |].
    intros k v [[= -> ->]|Hin]%elem_of_cons _; [done |].
    rewrite Forall_forall in Hhd. apply (Hhd (k, v) Hin).
  - intros (prefix & Hin & Hs & Hmax)%IH. exists prefix.
    split; [by right |]. split; [done |].
    intros k v [[= -> ->]|Hin']%elem_of_cons Hk; [congruence | eauto].
Qed.

(** Two prefixes of one path that have the same length are the same
    string: among the matching keys of a table the longest is unique. *)
Lemma prefix_same_length s p q :
  Py.startswith s p = true -> Py.startswith s q = true ->
  String.length p = String.length q -> p = q.
Proof.
  intros Hp%startswith_take Hq%startswith_take Hlen. by rewrite <- Hp, <- Hq, Hlen.
Qed.

(** Without an override, when some key matches, the value returned is
    that of a matching key than which no matching key is longer. *)
Lemma get_emoji_in_longest (overrides emoji_map : dict) (skill_path skill_name : string) :
  dict_get overrides skill_name = None ->
  (exists k v, (k, v) ∈ emoji_map /\ Py.startswith skill_path k = true) ->
  exists prefix,
    (prefix, get_emoji_in overrides emoji_map skill_path skill_name) ∈ emoji_map
    /\ Py.startswith skill_path prefix = true
    /\ forall k v, (k, v) ∈ emoji_map -> Py.startswith skill_path k = true ->
                   String.length k <= String.length prefix.
Proof.
  unfold get_emoji_in. intros -> (k & v & Hin & Hk).
  destruct (first_prefix_match skill_path (py_sorted longer_key_first emoji_map))
    as [emoji|] eqn:E.
  - apply first_prefix_match_Some in E as (prefix & Hin' & Hs & Hmax);
      [| apply sorted_items_descending].
    exists prefix. split; [by apply elem_of_py_sorted in Hin' |]. split; [done |].
    intros k' v' Hk' Hs'. apply (Hmax k' v'); [by apply elem_of_py_sorted | done].
  - rewrite first_prefix_match_None in E.
    rewrite (E k v) in Hk; [done | by apply elem_of_py_sorted].
Qed.

(** C4. [get_emoji] follows the three steps of the reference
    definition, on any pair of tables: an override for the leaf name is
    returned whatever the path; without an override, when some key of
    the prefix table is a prefix of the path, the value returned is that
    of a matching key than which no matching key is longer; when no key
    matches, the fallback is returned.  With the prefixes [a/b] and
    [a/b/c], the path [a/b/c/d] gets the value of [a/b/c]. *)
Theorem get_emoji_three_steps (overrides emoji_map : dict) (skill_path skill_name : string) :
  (forall v, dict_get overrides skill_name = Some v ->
             get_emoji_in overrides emoji_map skill_path skill_name = v)
  /\ (dict_get overrides skill_name = None ->
      (exists k v, (k, v) ∈ emoji_map /\ Py.startswith skill_path k = true) ->
      exists prefix,
        (prefix, get_emoji_in overrides emoji_map skill_path skill_name) ∈ emoji_map
        /\ Py.startswith skill_path prefix = true
        /\ forall k v, (k, v) ∈ emoji_map -> Py.startswith skill_path k = true ->
                       String.length k <= String.length prefix)
  /\ (dict_get overrides skill_name = None ->
      (forall k v, (k, v) ∈ emoji_map -> Py.startswith skill_path k = false) ->
      get_emoji_in overrides emoji_map skill_path skill_name = FALLBACK_EMOJI)
  /\ (forall X Y, get_emoji_in [] [("a/b", X); ("a/b/c", Y)] "a/b/c/d" skill_name = Y).
Proof.
  split; [| split; [| split]]; [| | unfold get_emoji_in ..].
  - unfold get_emoji_in. by intros v ->.
  - apply get_emoji_in_longest.
  - intros -> Hnone.
    destruct (first_prefix_match skill_path (py_sorted longer_key_first emoji_map))
      as [emoji|] eqn:E; [| done].
    apply first_prefix_match_Some in E as (prefix & Hin' & Hs & _);
      [| apply sorted_items_descending].
    apply elem_of_py_sorted in Hin'. by rewrite (Hnone _ _ Hin') in Hs.
  - reflexivity.
Qed.

Lemma get_emoji_three_steps_witness :
  get_emoji "personas/api/database-ops" "database-ops" = chr 0x1f5c4 +:+ chr 0xfe0f
  /\ (exists prefix,
        (prefix, get_emoji "personas/domain/gamedev/unity" "unity") ∈ EMOJI_MAP
        /\ Py.startswith "personas/domain/gamedev/unity" prefix = true
        /\ forall k v, (k, v) ∈ EMOJI_MAP ->
             Py.startswith "personas/domain/gamedev/unity" k = true ->
             String.length k <= String.length prefix)
  /\ get_emoji "misc/tool" "tool" = FALLBACK_EMOJI.
Proof.
  split; [| split].
  - apply (proj1 (get_emoji_three_steps API_EMOJI_OVERRIDES EMOJI_MAP
                    "personas/api/database-ops" "database-ops")).
    reflexivity.
  - apply (proj1 (proj2 (get_emoji_three_steps API_EMOJI_OVERRIDES EMOJI_MAP
                           "personas/domain/gamedev/unity" "unity"))).
    + reflexivity.
    + exists "personas/domain/gamedev", (chr 0x1f3ae).
      split; [| reflexivity]. do 13 right. left.
  - apply (proj1 (proj2 (proj2 (get_emoji_three_steps API_EMOJI_OVERRIDES EMOJI_MAP
                                  "misc/tool" "tool")))).
    + reflexivity.
    + intros k v Hin. apply list_elem_of_In in Hin.
      repeat (destruct Hin as [[= <- <-]|Hin]; [reflexivity |]). destruct Hin.
Defined.

(** In a table whose keys are distinct, as those of a dict are, the
    value of the longest matching key is determined. *)
Lemma longest_prefix_value_unique (emoji_map : dict) skill_path k1 v1 k2 v2 :
  NoDup (map fst emoji_map) ->
  (k1, v1) ∈ emoji_map -> Py.startswith skill_path k1 = true ->
  (k2, v2) ∈ emoji_map -> Py.startswith skill_path k2 = true ->
  (forall k v, (k, v) ∈ emoji_map -> Py.startswith skill_path k = true ->
               String.length k <= String.length k1) ->
  (forall k v, (k, v) ∈ emoji_map -> Py.startswith skill_path k = true ->
               String.length k <= String.length k2) ->
  v1 = v2.
Proof.
  intros Hnd H1 Hs1 H2 Hs2 Hmax1 Hmax2.
  assert (k1 = k2) as <-.
  { apply (prefix_same_length skill_path); [done | done |].
    apply Nat.le_antisymm; [by apply (Hmax2 k1 v1) | by apply (Hmax1 k2 v2)]. }
  clear -Hnd H1 H2. induction emoji_map as [|[k v] m IH]; [by apply elem_of_nil in H1 |].
  simpl in Hnd. apply NoDup_cons in Hnd as [Hk Hnd].
  apply elem_of_cons in H1 as [[= -> ->]|H1]; apply elem_of_cons in H2 as [[= <-]|H2]; try done.
  - destruct Hk. apply (list_elem_of_fmap_2 fst) in H2. done.
  - destruct Hk. apply (list_elem_of_fmap_2 fst) in H1. done.
  - by apply IH.
Qed.

Lemma tables_have_distinct_keys :
  NoDup (map fst EMOJI_MAP) /\ NoDup (map fst API_EMOJI_OVERRIDES).
Proof. split; apply (bool_decide_unpack _); vm_compute; exact I. Qed.

(** On the tables of the script: without an override, the value of a
    matching key than which no matching key is longer is the value
    returned. *)
Lemma get_emoji_longest skill_path skill_name k v :
  dict_get API_EMOJI_OVERRIDES skill_name = None ->
  (k, v) ∈ EMOJI_MAP -> Py.startswith skill_path k = true ->
  (forall k' v', (k', v') ∈ EMOJI_MAP -> Py.startswith skill_path k' = true ->
                 String.length k' <= String.length k) ->
  get_emoji skill_path skill_name = v.
Proof.
  intros Hov Hin Hs Hmax.
  destruct (get_emoji_in_longest API_EMOJI_OVERRIDES EMOJI_MAP skill_path skill_name Hov)
    as (k0 & Hin0 & Hs0 & Hmax0); [by exists k, v |].
  apply (longest_prefix_value_unique EMOJI_MAP skill_path k0 _ k v);
    [apply tables_have_distinct_keys | done..].
Qed.

(** ** The splice *)

Local Arguments Py.startswith : simpl never.

(** Once the metadata line is in, the loop only copies. *)
Lemma splice_loop_inserted fm_lines metadata_line is_persona ls st :
  metadata_inserted st = true ->
  fold_left (splice_step fm_lines metadata_line is_persona) ls st
  = LoopState (new_lines st ++ ls) true (user_invocable_inserted st).
Proof.
  revert st; induction ls as [|l ls IH]; intros [nls mi ui] Hmi; simpl in *; subst.
  - by rewrite app_nil_r.
  - unfold splice_step at 2; simpl. rewrite andb_false_r.
    rewrite IH by done. simpl. by rewrite <- app_assoc.
Qed.

(** Before it is in, the loop copies as long as no line is an anchor. *)
Lemma splice_loop_no_anchor fm_lines metadata_line is_persona ls st :
  metadata_inserted st = false ->
  Forall (fun l => is_anchor l = false) ls ->
  fold_left (splice_step fm_lines metadata_line is_persona) ls st
  = LoopState (new_lines st ++ ls) false (user_invocable_inserted st).
Proof.
  revert st; induction ls as [|l ls IH]; intros [nls mi ui] Hmi Hls; simpl in *; subst.
  - by rewrite app_nil_r.
  - inversion Hls as [|? ? Hl Hls']; subst. unfold is_anchor in Hl.
    unfold splice_step at 2; simpl. rewrite Hl; simpl.
    rewrite IH by done. simpl. by rewrite <- app_assoc.
Qed.

(** At the first anchor the metadata line and the flag line, when due,
    follow it. *)
Lemma splice_loop_anchor fm_lines metadata_line is_persona pre d post :
  Forall (fun l => is_anchor l = false) pre ->
  is_anchor d = true ->
  fold_left (splice_step fm_lines metadata_line is_persona) (pre ++ d :: post)
    (LoopState [] false false)
  = LoopState (pre ++ d :: metadata_line :: flag_lines fm_lines is_persona ++ post) true
      (is_persona && negb (defines_flag fm_lines)).
Proof.
  intros Hpre Hd. unfold is_anchor in Hd.
  rewrite fold_left_app, (splice_loop_no_anchor _ _ _ pre) by done. simpl.
  unfold splice_step at 2; simpl. rewrite Hd; simpl.
  unfold flag_lines.
  destruct is_persona; simpl; [destruct (defines_flag fm_lines); simpl |];
    rewrite splice_loop_inserted by done; simpl;
    rewrite <- ?app_assoc; simpl; done.
Qed.

Lemma first_anchor_or_none (ls : list string) :
  Forall (fun l => is_anchor l = false) ls
  \/ exists pre d post,
       ls = pre ++ d :: post
       /\ Forall (fun l => is_anchor l = false) pre /\ is_anchor d = true.
Proof.
  induction ls as [|l ls IH]; [by left |].
  destruct (is_anchor l) eqn:E.
  - right. by exists [], l, ls.
  - destruct IH as [IH|(pre & d & post & -> & Hpre & Hd)].
    + left. by constructor.
    + right. exists (l :: pre), d, post. split; [done |]. split; [by constructor | done].
Qed.

Lemma splice_lines_anchor fm_lines metadata_line is_persona pre d post :
  fm_lines = pre ++ d :: post ->
  Forall (fun l => is_anchor l = false) pre ->
  is_anchor d = true ->
  splice_lines fm_lines metadata_line is_persona
  = pre ++ d :: metadata_line :: flag_lines fm_lines is_persona ++ post.
Proof.
  intros E Hpre Hd. unfold splice_lines.
  pose proof (splice_loop_anchor fm_lines metadata_line is_persona pre d post Hpre Hd) as H.
  rewrite <- E in H. by rewrite H.
Qed.

Lemma splice_lines_no_anchor fm_lines metadata_line is_persona :
  Forall (fun l => is_anchor l = false) fm_lines ->
  splice_lines fm_lines metadata_line is_persona
  = fm_lines ++ metadata_line :: flag_lines fm_lines is_persona.
Proof.
  intros Hno. unfold splice_lines.
  rewrite splice_loop_no_anchor by done. simpl. unfold flag_lines.
  destruct (is_persona && negb (defines_flag fm_lines)); [| done].
  by rewrite <- app_assoc.
Qed.

(** C5. The splice keeps every line of the block in its order.  When
    some line begins with [description:], the metadata line comes right
    after the first such line, and the flag line right after the
    metadata line when the document is a persona and no line of the
    block defines the field; when no line begins with [description:], the
    same additions come at the very end of the block. *)
Theorem splice_placement (fm_lines : list string) (metadata_line : string) (is_persona : bool) :
  let flag := if is_persona && negb (defines_flag fm_lines) then [FLAG_LINE] else [] in
  let out := splice_lines fm_lines metadata_line is_persona in
  (forall pre d post,
      fm_lines = pre ++ d :: post ->
      Forall (fun l => Py.startswith l "description:" = false) pre ->
      Py.startswith d "description:" = true ->
      out = pre ++ [d] ++ [metadata_line] ++ flag ++ post)
  /\ (Forall (fun l => Py.startswith l "description:" = false) fm_lines ->
      out = fm_lines ++ [metadata_line] ++ flag)
  /\ fm_lines `sublist_of` out
  /\ ((exists pre d post,
         fm_lines = pre ++ d :: post
         /\ Forall (fun l => Py.startswith l "description:" = false) pre
         /\ Py.startswith d "description:" = true)
      \/ Forall (fun l => Py.startswith l "description:" = false) fm_lines).
Proof.
  intros flag out.
  assert (forall pre d post,
      fm_lines = pre ++ d :: post ->
      Forall (fun l => is_anchor l = false) pre -> is_anchor d = true ->
      out = pre ++ [d] ++ [metadata_line] ++ flag ++ post) as Hanchor.
  { intros pre d post E Hpre Hd. by apply splice_lines_anchor. }
  assert (Forall (fun l => is_anchor l = false) fm_lines ->
          out = fm_lines ++ [metadata_line] ++ flag) as Hnone.
  { intros Hno. by apply splice_lines_no_anchor. }
  split; [done |]. split; [done |].
  destruct (first_anchor_or_none fm_lines) as [Hno|(pre & d & post & E & Hpre & Hd)].
  - split; [| by right]. rewrite (Hnone Hno). by apply sublist_inserts_r.
  - split; [| left; by exists pre, d, post].
    rewrite (Hanchor pre d post E Hpre Hd), E.
    apply sublist_app; [done |]. simpl. apply sublist_skip.
    apply sublist_cons. by apply sublist_inserts_l.
Qed.

Lemma splice_placement_witness :
  splice_lines ["name: a"; "description: b"; "license: c"] "metadata: {}" true
  = ["name: a"] ++ ["description: b"] ++ ["metadata: {}"] ++ [FLAG_LINE] ++ ["license: c"].
Proof.
  apply (proj1 (splice_placement ["name: a"; "description: b"; "license: c"] "metadata: {}" true)
           ["name: a"] "description: b" ["license: c"]).
  - reflexivity.
  - by repeat constructor.
  - reflexivity.
Defined.


(** ** The skip test of line 123 *)

Lemma split_first sep s :
  sep <> EmptyString ->
  exists rest,
    Py.split sep s
    = match Py.find sep 0 s with Some i => Py.take i s | None => s end :: rest.
Proof.
  intros Hsep. unfold Py.split. induction s as [|c s IH]; simpl.
  - destruct (Py.startswith EmptyString sep) eqn:E; [| by exists []].
    by apply startswith_empty in E.
  - destruct (Py.startswith (String c s) sep); [by eexists |].
    destruct IH as [rest ->].
    destruct (Py.find sep 0 s); simpl; by eexists.
Qed.

Lemma already_has_metadata_eq content :
  already_has_metadata content = Ok (skip_check content).
Proof.
  unfold already_has_metadata, skip_check, Py.contains at 1.
  destruct (split_first END_MARKER content) as [rest E]; [done |]. rewrite E.
  by destruct (Py.find END_MARKER 0 content).
Qed.

(** ** One run of process_skill *)

Section OrchestratorFacts.

Variable re_search_name : string -> option string.
Variable py_strip : string -> string.
Variable openclaw_name_match : string -> bool.

Local Abbreviation process_skill := (process_skill re_search_name py_strip openclaw_name_match).
Local Abbreviation validate_name := (validate_name re_search_name py_strip openclaw_name_match).
Local Abbreviation run_files := (run_files re_search_name py_strip openclaw_name_match).
Local Abbreviation main := (main re_search_name py_strip openclaw_name_match).
Local Abbreviation warnings := (warnings re_search_name py_strip openclaw_name_match).
Local Abbreviation report := (report re_search_name py_strip openclaw_name_match).

Lemma world_eta w : World (fs w) (out w) = w.
Proof. by destruct w. Qed.

Lemma world_out_nil w : World (fs w) (out w ++ []) = w.
Proof. destruct w; simpl. by rewrite app_nil_r. Qed.

(** A run on an existing file never raises; its result, its writes
    and its prints are those of the outcome. *)
Lemma process_skill_run f dry_run verbose w content :
  fs w !! f = Some content ->
  process_skill f dry_run verbose w
  = Ok (changed f content,
        World (store_after f dry_run content (fs w))
              (out w ++ report f dry_run verbose content)).
Proof.
  intros Hf.
  unfold process_skill, changed, store_after, report, warnings, outcome_of,
    new_content_of, is_persona_of, skill_path_of, skill_name_of.
  unfold bind at 1, read_text. rewrite Hf.
  unfold bind at 1, lift. rewrite already_has_metadata_eq.
  destruct (skip_check content).
  { unfold bind, when, print, ret. destruct verbose; simpl; [done |].
    by rewrite world_out_nil. }
  destruct (parse_frontmatter content) as [[[fm_text body] raw]|e] eqn:E.
  - unfold bind at 1, validate_name.
    destruct (re_search_name fm_text) as [g|]; simpl;
      [destruct (openclaw_name_match _); simpl |];
      destruct dry_run, verbose;
      unfold bind, when, print, write_text, ret, dry_run_report, ok_report; simpl;
      rewrite <- ?app_assoc, ?app_nil_r, ?world_eta; done.
  - apply parse_frontmatter_Raise in E as [[_ ->]|(_ & _ & ->)];
      unfold bind, print, ret; simpl; done.
Qed.

Lemma process_skill_missing f dry_run verbose w :
  fs w !! f = None ->
  process_skill f dry_run verbose w = Raise (FileNotFoundError (path_str f)).
Proof.
  intros Hf. unfold process_skill, bind at 1, read_text. by rewrite Hf.
Qed.

End OrchestratorFacts.

(** ** The metadata line *)

Lemma dict_get_elem_of (d : dict) k v : dict_get d k = Some v -> (k, v) ∈ d.
Proof.
  induction d as [|[k' v'] d IH]; simpl; [done |].
  destruct (String.eqb_spec k' k) as [->|_]; [intros [= ->]; left | right; auto].
Qed.

(** Every emoji the lookup returns is a value of a table or the fallback. *)
Lemma get_emoji_in_range overrides emoji_map skill_path skill_name :
  get_emoji_in overrides emoji_map skill_path skill_name
  ∈ map snd overrides ++ map snd emoji_map ++ [FALLBACK_EMOJI].
Proof.
  unfold get_emoji_in. rewrite !elem_of_app.
  destruct (dict_get overrides skill_name) as [v|] eqn:E.
  - left. apply dict_get_elem_of in E. by apply (list_elem_of_fmap_2 snd) in E.
  - right. destruct (first_prefix_match _ _) as [v|] eqn:F.
    + left. apply first_prefix_match_Some in F as (k & Hin & _);
        [| apply sorted_items_descending].
      apply elem_of_py_sorted in Hin. by apply (list_elem_of_fmap_2 snd) in Hin.
    + right. by left.
Qed.

Lemma emoji_facts skill_path skill_name :
  let e := get_emoji skill_path skill_name in
  escape e = e /\ lf_free e = true.
Proof.
  pose proof (get_emoji_in_range API_EMOJI_OVERRIDES EMOJI_MAP skill_path skill_name) as H.
  fold (get_emoji skill_path skill_name) in H.
  revert H. generalize (get_emoji skill_path skill_name). intros e He.
  assert (Forall (fun e => escape e = e /\ lf_free e = true)
            (map snd API_EMOJI_OVERRIDES ++ map snd EMOJI_MAP ++ [FALLBACK_EMOJI])) as Hall.
  { vm_compute. repeat constructor. }
  rewrite Forall_forall in Hall. by apply Hall.
Qed.

Lemma build_metadata_line_text skill_path skill_name :
  build_metadata_line skill_path skill_name
  = metadata_line_text (get_emoji skill_path skill_name).
Proof.
  destruct (emoji_facts skill_path skill_name) as [He _].
  unfold build_metadata_line, metadata_line_text, quoted; simpl.
  unfold encode_basestring. rewrite He. simpl.
  rewrite !str_app_assoc. simpl. done.
Qed.

Lemma lf_free_app s t : lf_free (s +:+ t) = lf_free s && lf_free t.
Proof.
  induction s as [|c s IH]; simpl; [done |]. by rewrite IH, andb_assoc.
Qed.

Lemma build_metadata_line_facts skill_path skill_name :
  let m := build_metadata_line skill_path skill_name in
  lf_free m = true
  /\ Py.startswith m "metadata:" = true
  /\ m <> "---"
  /\ m <> FLAG_LINE
  /\ Py.startswith m FLAG_KEY = false
  /\ is_anchor m = false.
Proof.
  destruct (emoji_facts skill_path skill_name) as [_ Hlf].
  cbv zeta. rewrite build_metadata_line_text.
  generalize dependent (get_emoji skill_path skill_name). intros e Hlf.
  split; [| by repeat split].
  unfold metadata_line_text, quoted. rewrite !lf_free_app, Hlf. reflexivity.
Qed.

(** ** Where the end marker occurs in a text made of lines *)

Lemma occurs_at_app_plus sub a t j :
  occurs_at sub (String.length a + j) (a +:+ t) <-> occurs_at sub j t.
Proof.
  unfold occurs_at. rewrite drop_app_plus, str_length_app.
  split; intros [H1 H2]; (split; [lia | done]).
Qed.

Lemma occurs_at_app_length sub a t :
  occurs_at sub (String.length a) (a +:+ sub +:+ t).
Proof.
  split; [rewrite str_length_app; lia |].
  rewrite drop_app_length. apply startswith_app.
Qed.

(** No pattern that begins with a newline occurs inside a line. *)
Lemma not_occurs_in_line l t p j :
  lf_free l = true -> j < String.length l ->
  ~ occurs_at (String LF p) j (l +:+ t).
Proof.
  revert j; induction l as [|c l IH]; intros j Hl Hj; simpl in *; [lia |].
  apply andb_prop in Hl as [Hc Hl]. destruct j as [|j].
  - intros [_ H]. simpl in H. unfold Py.startswith in H.
    destruct (Ascii.eqb LF c); done.
  - rewrite occurs_at_cons. apply IH; [done | lia].
Qed.

(** A line followed by a newline begins with a marker line exactly
    when it is the marker line. *)
Lemma line_is_marker l t :
  lf_free l = true ->
  Py.startswith (l +:+ nl +:+ t) START_MARKER = true <-> l = "---".
Proof.
  intros Hl. split; [| intros ->; reflexivity].
  destruct l as [|c1 [|c2 [|c3 [|c4 l]]]]; try (by intros [=]%startswith_inv).
  - intros [= -> -> ->]%startswith_inv. done.
  - intros [= -> -> -> ->]%startswith_inv. done.
Qed.

(** A block of lines followed by the end marker: the lines with the
    text that follows the first of them. *)
Lemma join_cons_then_marker x L body :
  exists t, Py.join nl (x :: L) +:+ END_MARKER +:+ body = x +:+ nl +:+ t
            /\ (L = [] -> t = START_MARKER +:+ body)
            /\ (L <> [] -> t = Py.join nl L +:+ END_MARKER +:+ body).
Proof.
  destruct L as [|y L].
  - exists (START_MARKER +:+ body). split; [| done]. simpl Py.join.
    change (END_MARKER +:+ body) with (nl +:+ START_MARKER +:+ body). done.
  - exists (Py.join nl (y :: L) +:+ END_MARKER +:+ body).
    rewrite join_cons. by rewrite !str_app_assoc.
Qed.

(** In lines none of which, past the first, is a marker line, the end
    marker that follows them is the first one. *)
Lemma no_marker_before_end L body j :
  L <> [] ->
  Forall (fun l => lf_free l = true) L ->
  Forall (fun l => l <> "---") (tail L) ->
  j < String.length (Py.join nl L) ->
  ~ occurs_at END_MARKER j (Py.join nl L +:+ END_MARKER +:+ body).
Proof.
  revert j. induction L as [|x L IH]; [done |]. intros j _ Hlf Hno Hj.
  inversion Hlf as [|? ? Hx Hlf']; subst. simpl in Hno.
  destruct (join_cons_then_marker x L body) as (t & -> & Ht1 & Ht2).
  destruct (Nat.lt_trichotomy j (String.length x)) as [Hlt|[->|Hgt]].
  - by apply not_occurs_in_line.
  - destruct L as [|y L]; [simpl in Hj; lia |].
    inversion Hno as [|? ? Hy Hno']; subst. inversion Hlf' as [|? ? Hylf _]; subst.
    intros [_ H]. rewrite drop_app_length in H.
    destruct (join_cons_then_marker y L body) as (t' & E & _).
    rewrite Ht2 in H by done. rewrite E in H.
    change (Py.startswith (nl +:+ y +:+ nl +:+ t') END_MARKER)
      with (Py.startswith (y +:+ nl +:+ t') START_MARKER) in H.
    by apply line_is_marker in H.
  - destruct L as [|y L].
    { simpl in Hj. lia. }
    replace j with (String.length (x +:+ nl) + (j - String.length x - 1))
      by (rewrite str_length_app; change (String.length nl) with 1; lia).
    rewrite <- str_app_assoc, occurs_at_app_plus, Ht2 by done.
    apply IH; [done | done | by inversion Hno |].
    rewrite join_cons, !str_length_app in Hj.
    change (String.length nl) with 1 in Hj. lia.
Qed.

(** Conversely, when the end marker that follows the lines is the first
    one, no line past the first is a marker line. *)
Lemma end_first_no_marker L body :
  L <> [] ->
  (forall j, j < String.length (Py.join nl L) ->
             ~ occurs_at END_MARKER j (Py.join nl L +:+ END_MARKER +:+ body)) ->
  Forall (fun l => l <> "---") (tail L).
Proof.
  induction L as [|x L IH]; [done |]. intros _ Hfirst. simpl.
  destruct L as [|y L]; [constructor |].
  destruct (join_cons_then_marker x (y :: L) body) as (t & Et & _ & Ht2).
  specialize (Ht2 ltac:(done)).
  destruct (join_cons_then_marker y L body) as (t' & Et' & _).
  constructor.
  - intros ->. apply (Hfirst (String.length x)).
    + rewrite join_cons, !str_length_app. change (String.length nl) with 1. lia.
    + rewrite Et, Ht2, Et'. split; [rewrite !str_length_app; lia |].
      rewrite drop_app_length. reflexivity.
  - apply IH; [done |]. intros j Hj Hocc.
    apply (Hfirst (String.length (x +:+ nl) + j)).
    + rewrite join_cons, !str_length_app in *.
      change (String.length nl) with 1 in *. lia.
    + rewrite Et, <- str_app_assoc, occurs_at_app_plus, Ht2. done.
Qed.

(** ** Parsing what line 172 builds *)

Lemma parse_reassemble L body :
  L <> [] ->
  Forall (fun l => lf_free l = true) L ->
  Forall (fun l => l <> "---") (tail L) ->
  parse_frontmatter (reassemble L body)
  = Ok (Py.join nl L, body, START_MARKER +:+ Py.join nl L +:+ END_MARKER).
Proof.
  intros Hne Hlf Hno. unfold reassemble.
  assert (Py.find END_MARKER 4 (START_MARKER +:+ Py.join nl L +:+ END_MARKER +:+ body)
          = Some (4 + String.length (Py.join nl L))) as Hfind.
  { apply find_Some. split; [lia |]. split.
    - apply (occurs_at_app_plus END_MARKER START_MARKER). apply occurs_at_app_length.
    - intros j Hj Hocc.
      replace j with (String.length START_MARKER + (j - 4)) in Hocc by (simpl; lia).
      apply occurs_at_app_plus in Hocc.
      apply (no_marker_before_end L body (j - 4)); [done | done | done | lia | done]. }
  apply parse_frontmatter_Ok. eexists. split; [apply startswith_app |].
  split; [exact Hfind |]. unfold Py.slice.
  replace (4 + String.length (Py.join nl L) - 4) with (String.length (Py.join nl L)) by lia.
  split; [| split].
  - change 4 with (String.length START_MARKER). by rewrite drop_app_length, take_app_length.
  - replace (4 + String.length (Py.join nl L) + 5)
      with (String.length ((START_MARKER +:+ Py.join nl L) +:+ END_MARKER))
      by (rewrite !str_length_app; simpl; lia).
    rewrite <- !str_app_assoc. by rewrite drop_app_length.
  - replace (4 + String.length (Py.join nl L) + 5)
      with (String.length ((START_MARKER +:+ Py.join nl L) +:+ END_MARKER))
      by (rewrite !str_length_app; simpl; lia).
    rewrite <- !str_app_assoc. rewrite take_app_length. by rewrite !str_app_assoc.
Qed.

(** In a parsed block no line past the first is a marker line. *)
Lemma parsed_block_lines content fm_text body raw :
  parse_frontmatter content = Ok (fm_text, body, raw) ->
  Forall (fun l => l <> "---") (tail (Py.split nl fm_text)).
Proof.
  intros (Hc & _ & Hfind)%parse_frontmatter_shape.
  apply (end_first_no_marker _ body); [apply split_ne |].
  rewrite join_split_nl. intros j Hj Hocc.
  apply find_sound in Hfind as (_ & _ & Hmin).
  apply (Hmin (String.length START_MARKER + j)); [simpl; lia |].
  rewrite Hc. by apply occurs_at_app_plus.
Qed.

(** ** The shape of the spliced block *)

Lemma splice_lines_shape fm_lines metadata_line is_persona :
  exists A B,
    fm_lines = A ++ B
    /\ (fm_lines <> [] -> A <> [])
    /\ splice_lines fm_lines metadata_line is_persona
       = A ++ metadata_line :: flag_lines fm_lines is_persona ++ B.
Proof.
  destruct (first_anchor_or_none fm_lines) as [Hno|(pre & d & post & E & Hpre & Hd)].
  - exists fm_lines, []. rewrite !app_nil_r. split; [done |]. split; [done |].
    by apply splice_lines_no_anchor.
  - exists (pre ++ [d]), post. rewrite <- app_assoc. split; [done |].
    split; [intros _; by destruct pre |].
    rewrite <- app_assoc. by apply splice_lines_anchor.
Qed.

Lemma flag_lines_cases fm_lines is_persona :
  (flag_lines fm_lines is_persona = [FLAG_LINE]
   /\ is_persona = true /\ defines_flag fm_lines = false)
  \/ (flag_lines fm_lines is_persona = []
      /\ (is_persona = false \/ defines_flag fm_lines = true)).
Proof.
  unfold flag_lines. destruct is_persona, (defines_flag fm_lines); simpl; auto.
Qed.

(** A property of lines that holds of the block, of the metadata line
    and of the flag line holds of the spliced block. *)
Lemma splice_lines_Forall (P : string -> Prop) fm_lines metadata_line is_persona :
  Forall P fm_lines -> P metadata_line -> P FLAG_LINE ->
  Forall P (splice_lines fm_lines metadata_line is_persona).
Proof.
  intros Hfm Hm Hf.
  destruct (splice_lines_shape fm_lines metadata_line is_persona) as (A & B & -> & _ & ->).
  apply Forall_app in Hfm as [HA HB].
  apply Forall_app. split; [done |]. constructor; [done |].
  apply Forall_app. split; [| done].
  destruct (flag_lines_cases (A ++ B) is_persona) as [[-> _]|[-> _]]; by repeat constructor.
Qed.

Lemma splice_lines_tail_Forall (P : string -> Prop) fm_lines metadata_line is_persona :
  fm_lines <> [] ->
  Forall P (tail fm_lines) -> P metadata_line -> P FLAG_LINE ->
  Forall P (tail (splice_lines fm_lines metadata_line is_persona)).
Proof.
  intros Hne Hfm Hm Hf.
  destruct (splice_lines_shape fm_lines metadata_line is_persona) as (A & B & -> & HA & ->).
  specialize (HA Hne). destruct A as [|a A]; [done |].
  simpl in *. apply Forall_app in Hfm as [HA' HB].
  apply Forall_app. split; [done |]. constructor; [done |].
  apply Forall_app. split; [| done].
  destruct (flag_lines_cases (a :: A ++ B) is_persona) as [[-> _]|[-> _]];
    by repeat constructor.
Qed.

Lemma splice_lines_ne fm_lines metadata_line is_persona :
  splice_lines fm_lines metadata_line is_persona <> [].
Proof.
  destruct (splice_lines_shape fm_lines metadata_line is_persona) as (A & B & _ & _ & ->).
  by destruct A.
Qed.

(** ** The edited document *)

Lemma new_content_of_eq f fm_text body :
  new_content_of f fm_text body = reassemble (new_lines_of f fm_text) body.
Proof. done. Qed.

Lemma new_lines_lf_free f fm_text :
  Forall (fun l => lf_free l = true) (new_lines_of f fm_text).
Proof.
  apply splice_lines_Forall; [apply split_nl_Forall | | done].
  apply build_metadata_line_facts.
Qed.

Lemma join_cons_ne x L : L <> [] -> Py.join nl (x :: L) = x +:+ nl +:+ Py.join nl L.
Proof. by destruct L. Qed.

(** The edited document parses, into the spliced block and the body as
    it was. *)
Lemma edited_parses f content fm_text body raw :
  parse_frontmatter content = Ok (fm_text, body, raw) ->
  parse_frontmatter (new_content_of f fm_text body)
  = Ok (Py.join nl (new_lines_of f fm_text), body,
        START_MARKER +:+ Py.join nl (new_lines_of f fm_text) +:+ END_MARKER)
  /\ Py.split nl (Py.join nl (new_lines_of f fm_text)) = new_lines_of f fm_text.
Proof.
  intros Hparse. split.
  - rewrite new_content_of_eq. apply parse_reassemble.
    + apply splice_lines_ne.
    + apply new_lines_lf_free.
    + apply splice_lines_tail_Forall; [apply split_ne | | | done].
      * by apply (parsed_block_lines content fm_text body raw).
      * apply build_metadata_line_facts.
  - apply split_join_nl; [apply splice_lines_ne | apply new_lines_lf_free].
Qed.

Lemma contains_app sub a t : Py.contains sub (a +:+ sub +:+ t) = true.
Proof.
  unfold Py.contains.
  destruct (find_complete sub 0 (a +:+ sub +:+ t) (String.length a)) as (i & -> & _);
    [lia | apply occurs_at_app_length | done].
Qed.

(** The spliced block holds the metadata line after a newline. *)
Lemma new_lines_contain_key f fm_text t :
  Py.contains METADATA_KEY (START_MARKER +:+ Py.join nl (new_lines_of f fm_text) +:+ t) = true.
Proof.
  unfold new_lines_of.
  destruct (splice_lines_shape (Py.split nl fm_text)
              (build_metadata_line (skill_path_of f) (skill_name_of f)) (is_persona_of f))
    as (A & B & _ & _ & ->).
  destruct (build_metadata_line_facts (skill_path_of f) (skill_name_of f))
    as (_ & Hkey%startswith_inv & _).
  set (m := build_metadata_line (skill_path_of f) (skill_name_of f)) in *.
  set (rest := flag_lines _ _ ++ B).
  assert (exists u v, START_MARKER +:+ Py.join nl (A ++ m :: rest) +:+ t
                      = u +:+ METADATA_KEY +:+ v) as (u & v & ->);
    [| apply contains_app].
  assert (exists y, Py.join nl (m :: rest) = m +:+ y) as [y Hy].
  { destruct rest; [exists EmptyString; by rewrite str_app_nil_r | by eexists]. }
  destruct A as [|a A].
  - exists "---", (Py.drop (String.length "metadata:") m +:+ y +:+ t).
    simpl app. rewrite Hy, Hkey at 1.
    change METADATA_KEY with (nl +:+ "metadata:"). rewrite !str_app_assoc. done.
  - exists (START_MARKER +:+ Py.join nl (a :: A)),
           (Py.drop (String.length "metadata:") m +:+ y +:+ t).
    rewrite join_app_nl by done. rewrite Hy, Hkey at 1.
    change METADATA_KEY with (nl +:+ "metadata:"). rewrite !str_app_assoc. done.
Qed.

(** When the first line of the block is no marker line either, the
    skip test holds of the edited document. *)
Lemma edited_skip f content fm_text body raw :
  parse_frontmatter content = Ok (fm_text, body, raw) ->
  head (Py.split nl fm_text) <> Some "---" ->
  skip_check (new_content_of f fm_text body) = true.
Proof.
  intros Hparse Hhead. rewrite new_content_of_eq. unfold reassemble, skip_check.
  set (L := new_lines_of f fm_text).
  assert (START_MARKER +:+ Py.join nl L = Py.join nl ("---" :: L)) as EL.
  { rewrite join_cons_ne by apply splice_lines_ne. done. }
  assert (Py.find END_MARKER 0 (START_MARKER +:+ Py.join nl L +:+ END_MARKER +:+ body)
          = Some (String.length (START_MARKER +:+ Py.join nl L))) as ->.
  { rewrite <- str_app_assoc, EL. apply find_Some. split; [lia |]. split.
    - apply occurs_at_app_length.
    - intros j [_ Hj]. apply no_marker_before_end; [done | | | done].
      + constructor; [done | apply new_lines_lf_free].
      + simpl. apply splice_lines_Forall; [| apply build_metadata_line_facts | done].
        pose proof (parsed_block_lines _ _ _ _ Hparse) as Htail.
        destruct (Py.split nl fm_text) as [|l ls]; [constructor |].
        constructor; [| done]. simpl in Hhead. congruence. }
  rewrite <- str_app_assoc, take_app_length.
  rewrite <- (str_app_nil_r (Py.join nl L)). apply new_lines_contain_key.
Qed.

(** ** The scenario of the specification *)

Lemma doc_plain_parse :
  parse_frontmatter doc_plain = Ok (doc_plain_fm, doc_plain_body, Py.take 49 doc_plain).
Proof. reflexivity. Qed.

Lemma doc_plain_outcome f :
  is_persona_of f = true ->
  outcome_of f doc_plain
  = Edited (doc_plain_edited (get_emoji (skill_path_of f) (skill_name_of f))).
Proof.
  intros Hp. unfold outcome_of.
  change (skip_check doc_plain) with false. cbv iota. rewrite doc_plain_parse.
  f_equal. unfold new_content_of, doc_plain_edited, reassemble. rewrite Hp.
  change (Py.split nl doc_plain_fm) with (["name: my-skill"] ++ "description: does a thing" :: []).
  rewrite (splice_lines_anchor _ _ _ ["name: my-skill"] "description: does a thing" []);
    [| done | by repeat constructor | done].
  by rewrite build_metadata_line_text.
Qed.

Section Scenario.

Variable re_search_name : string -> option string.
Variable py_strip : string -> string.
Variable openclaw_name_match : string -> bool.

Local Abbreviation process_skill := (process_skill re_search_name py_strip openclaw_name_match).

(** C2. On the document of the scenario, under a path of the persona
    category whose emoji is [X], a run in write mode reports a change
    and leaves in the file the same start marker, the two lines of the
    block, then the line
    [metadata: {"openclaw": {"emoji": "X", "os": ["darwin", "linux", "win32"]}}]
    right after the [description:] line, then [user-invocable: true],
    the end marker and the body as it was. *)
Theorem scenario_persona_document (f : path) (X : string) (verbose : bool) (w : world) :
  fs w !! f = Some doc_plain ->
  Py.startswith (path_str (path_parent f)) "personas/" = true ->
  get_emoji (path_str (path_parent f)) (path_name (path_parent f)) = X ->
  doc_plain
  = START_MARKER +:+ Py.join nl ["name: my-skill"; "description: does a thing"]
    +:+ END_MARKER +:+ doc_plain_body
  /\ exists printed,
       process_skill f false verbose w
       = Ok (true, World (<[f := doc_plain_edited X]> (fs w)) (out w ++ printed)).
Proof.
  intros Hf Hp HX. split; [reflexivity |].
  eexists. rewrite (process_skill_run _ _ _ _ _ _ _ _ Hf).
  unfold changed, store_after. rewrite (doc_plain_outcome f Hp).
  unfold skill_path_of, skill_name_of. rewrite HX. reflexivity.
Qed.

End Scenario.

Lemma scenario_persona_document_witness :
  doc_plain
  = START_MARKER +:+ Py.join nl ["name: my-skill"; "description: does a thing"]
    +:+ END_MARKER +:+ doc_plain_body
  /\ exists printed,
       process_skill ascii_re_search_name ascii_strip ascii_openclaw_name_match
         skill_file false true scenario_world
       = Ok (true,
             World (<[skill_file := doc_plain_edited (chr 0x1f527)]> (fs scenario_world))
                   (out scenario_world ++ printed)).
Proof.
  apply (scenario_persona_document ascii_re_search_name ascii_strip ascii_openclaw_name_match
           skill_file (chr 0x1f527) true scenario_world).
  - apply lookup_singleton_eq.
  - reflexivity.
  - reflexivity.
Defined.

(** ** Discovery *)

Lemma insert_sorted_Permutation {A} (lt : A -> A -> bool) a l :
  insert_sorted lt a l ≡ₚ a :: l.
Proof.
  induction l as [|y l IH]; simpl; [done |].
  destruct (lt y a); [| done]. rewrite IH. apply Permutation_swap.
Qed.

Lemma py_sorted_Permutation {A} (lt : A -> A -> bool) l : py_sorted lt l ≡ₚ l.
Proof.
  induction l as [|a l IH]; simpl; [done |].
  by rewrite insert_sorted_Permutation, IH.
Qed.

Lemma elem_of_glob_files root files p :
  p ∈ glob_files root files <-> glob_match root p = true /\ is_Some (files !! p).
Proof.
  unfold glob_files. rewrite list_elem_of_filter.
  change (map fst (map_to_list files)) with ((map_to_list files).*1).
  rewrite list_elem_of_fmap. split.
  - intros [Hm ([k v] & -> & Hin%elem_of_map_to_list)]. split; [done | by exists v].
  - intros [Hm [v Hv]]. split; [done |]. exists (p, v). split; [done |].
    by apply elem_of_map_to_list.
Qed.

Lemma NoDup_glob_files root files : NoDup (glob_files root files).
Proof. apply NoDup_filter, NoDup_fst_map_to_list. Qed.

Lemma glob_match_root root p : glob_match root p = true -> head p = Some root.
Proof.
  destruct p as [|r rest]; simpl; [done |].
  intros [Hr _]%andb_prop. apply String.eqb_eq in Hr. by subst.
Qed.

Lemma elem_of_discovered files p :
  p ∈ discovered files ->
  is_Some (files !! p)
  /\ (glob_match "personas" p = true \/ glob_match "agents" p = true
      \/ glob_match "workflows" p = true).
Proof.
  unfold discovered. rewrite !elem_of_app, !py_sorted_Permutation, !elem_of_glob_files.
  tauto.
Qed.

Lemma NoDup_discovered files : NoDup (discovered files).
Proof.
  unfold discovered. rewrite !py_sorted_Permutation.
  apply NoDup_app. split; [apply NoDup_glob_files |]. split.
  - intros p [Hp _]%elem_of_glob_files [[Ha _]%elem_of_glob_files|[Hw _]%elem_of_glob_files]%elem_of_app;
      apply glob_match_root in Hp, Ha || apply glob_match_root in Hp, Hw; congruence.
  - apply NoDup_app. split; [apply NoDup_glob_files |]. split; [| apply NoDup_glob_files].
    intros p [Ha _]%elem_of_glob_files [Hw _]%elem_of_glob_files.
    apply glob_match_root in Ha, Hw; congruence.
Qed.

(** ** The batch *)

Lemma outcome_cases f content :
  (outcome_of f content = Skipped /\ skip_check content = true)
  \/ (outcome_of f content = Unparsed /\ skip_check content = false
      /\ exists msg, parse_frontmatter content = Raise (ValueError msg))
  \/ (exists fm_text body raw,
        outcome_of f content = Edited (new_content_of f fm_text body)
        /\ skip_check content = false
        /\ parse_frontmatter content = Ok (fm_text, body, raw)).
Proof.
  unfold outcome_of. destruct (skip_check content); [by left | right].
  destruct (parse_frontmatter_total content) as [[[[fm body] raw] ->]|[msg ->]].
  - right. by exists fm, body, raw.
  - left. split; [done |]. split; [done | by exists msg].
Qed.

(** ** Counting the flag line *)

Lemma count_flag_app l1 l2 : count_flag (l1 ++ l2) = count_flag l1 + count_flag l2.
Proof. unfold count_flag. by rewrite filter_app, length_app. Qed.

Lemma count_flag_cons_ne x l : x <> FLAG_LINE -> count_flag (x :: l) = count_flag l.
Proof. intros Hx. unfold count_flag. by rewrite filter_cons_False. Qed.

Lemma flag_count_document fm_text body :
  flag_count (START_MARKER +:+ fm_text +:+ END_MARKER +:+ body)
  = count_flag (Py.split nl fm_text) + count_flag (Py.split nl body).
Proof.
  unfold flag_count. rewrite reassemble_lines.
  rewrite count_flag_cons_ne by done. rewrite count_flag_app.
  by rewrite count_flag_cons_ne by done.
Qed.

Lemma count_flag_new_lines f fm_text :
  count_flag (new_lines_of f fm_text)
  = count_flag (Py.split nl fm_text)
    + length (flag_lines (Py.split nl fm_text) (is_persona_of f)).
Proof.
  unfold new_lines_of.
  destruct (splice_lines_shape (Py.split nl fm_text)
              (build_metadata_line (skill_path_of f) (skill_name_of f)) (is_persona_of f))
    as (A & B & E & _ & ->).
  rewrite E at 2. rewrite !count_flag_app.
  rewrite count_flag_cons_ne by apply build_metadata_line_facts.
  rewrite count_flag_app.
  destruct (flag_lines_cases (Py.split nl fm_text) (is_persona_of f)) as [[-> _]|[-> _]].
  - change (count_flag [FLAG_LINE]) with 1. simpl length. lia.
  - change (count_flag []) with 0. simpl length. lia.
Qed.

(** What an edit adds to the count. *)
Lemma flag_count_edited f content fm_text body raw :
  parse_frontmatter content = Ok (fm_text, body, raw) ->
  flag_count (new_content_of f fm_text body)
  = flag_count content + length (flag_lines (Py.split nl fm_text) (is_persona_of f)).
Proof.
  intros Hparse. destruct (edited_parses f _ _ _ _ Hparse) as [_ Hsplit].
  apply parse_frontmatter_shape in Hparse as (-> & _ & _).
  rewrite new_content_of_eq. unfold reassemble.
  rewrite !flag_count_document, Hsplit, count_flag_new_lines. lia.
Qed.

Lemma defines_flag_app l1 l2 : defines_flag (l1 ++ l2) = defines_flag l1 || defines_flag l2.
Proof. unfold defines_flag, Py.any. apply existsb_app. Qed.

(** What the block defines, the spliced block defines. *)
Lemma defines_flag_new_lines f fm_text :
  defines_flag (Py.split nl fm_text) = true \/ flag_lines (Py.split nl fm_text) (is_persona_of f) = [FLAG_LINE] ->
  defines_flag (new_lines_of f fm_text) = true.
Proof.
  unfold new_lines_of.
  destruct (splice_lines_shape (Py.split nl fm_text)
              (build_metadata_line (skill_path_of f) (skill_name_of f)) (is_persona_of f))
    as (A & B & E & _ & ->).
  rewrite E at 1. rewrite !defines_flag_app.
  change (?m :: ?l ++ B) with ([m] ++ l ++ B). rewrite !defines_flag_app.
  intros [H| ->].
  - apply orb_prop in H as [-> | ->]; by rewrite ?orb_true_r.
  - change (defines_flag [FLAG_LINE]) with true. by rewrite ?orb_true_r.
Qed.

Lemma flag_defined_edited f content fm_text body raw :
  parse_frontmatter content = Ok (fm_text, body, raw) ->
  defines_flag (Py.split nl fm_text) = true \/ flag_lines (Py.split nl fm_text) (is_persona_of f) = [FLAG_LINE] ->
  flag_defined (new_content_of f fm_text body).
Proof.
  intros Hparse Hdef fm' body' raw' Hparse'.
  destruct (edited_parses f _ _ _ _ Hparse) as [Hp Hsplit].
  rewrite Hp in Hparse'. injection Hparse' as <- _ _.
  rewrite Hsplit. by apply defines_flag_new_lines.
Qed.

(** Once the flag is defined, no run adds it. *)
Lemma next_content_defined f content :
  flag_defined content ->
  flag_count (next_content f content) = flag_count content
  /\ flag_defined (next_content f content).
Proof.
  intros Hdef. unfold next_content.
  destruct (outcome_cases f content)
    as [[-> _]|[(-> & _)|(fm & body & raw & -> & _ & Hparse)]]; [done | done |].
  pose proof (Hdef _ _ _ Hparse) as Hfm. split.
  - rewrite (flag_count_edited f content fm body raw Hparse).
    destruct (flag_lines_cases (Py.split nl fm) (is_persona_of f)) as [(_ & _ & H)|[-> _]];
      [congruence | simpl; lia].
  - apply (flag_defined_edited f content fm body raw Hparse). by left.
Qed.

Lemma iter_next_content_defined f content n :
  flag_defined content ->
  flag_count (Nat.iter n (next_content f) content) = flag_count content
  /\ flag_defined (Nat.iter n (next_content f) content).
Proof.
  intros Hdef. induction n as [|n [IH1 IH2]]; simpl; [done |].
  destruct (next_content_defined f _ IH2) as [H1 H2]. split; [congruence | done].
Qed.

(** Outside the persona category no run adds the flag. *)
Lemma next_content_not_persona f content :
  is_persona_of f = false ->
  flag_count (next_content f content) = flag_count content.
Proof.
  intros Hp. unfold next_content.
  destruct (outcome_cases f content)
    as [[-> _]|[(-> & _)|(fm & body & raw & -> & _ & Hparse)]]; [done | done |].
  rewrite (flag_count_edited f content fm body raw Hparse).
  unfold flag_lines. rewrite Hp. simpl. lia.
Qed.

Section Runs.

Variable re_search_name : string -> option string.
Variable py_strip : string -> string.
Variable openclaw_name_match : string -> bool.

Local Abbreviation process_skill := (process_skill re_search_name py_strip openclaw_name_match).
Local Abbreviation run_files := (run_files re_search_name py_strip openclaw_name_match).
Local Abbreviation main := (main re_search_name py_strip openclaw_name_match).
Local Abbreviation report := (report re_search_name py_strip openclaw_name_match).
Local Abbreviation warnings := (warnings re_search_name py_strip openclaw_name_match).
Local Abbreviation run_n := (run_n re_search_name py_strip openclaw_name_match).

Implicit Types (f g : path) (dry_run verbose : bool) (content : string) (w : world).
Implicit Types (modified total : nat) (skill_files rest : list path).

Lemma store_after_other (f : path) dry_run (content : string) (files : gmap path string) (g : path) :
  g <> f -> store_after f dry_run content files !! g = files !! g.
Proof.
  intros Hg. unfold store_after.
  destruct (outcome_of f content); [done | done |].
  destruct dry_run; [done | by rewrite lookup_insert_ne].
Qed.

Lemma store_after_dry (f : path) (content : string) (files : gmap path string) :
  store_after f true content files = files.
Proof. unfold store_after. by destruct (outcome_of f content). Qed.

Lemma store_after_same (f : path) dry_run (content : string) (files : gmap path string) :
  files !! f = Some content ->
  exists content', store_after f dry_run content files !! f = Some content'.
Proof.
  intros Hf. unfold store_after.
  destruct (outcome_of f content); [by eexists | by eexists |].
  destruct dry_run; [by eexists | rewrite lookup_insert_eq; by eexists].
Qed.

Lemma store_after_is_Some (f : path) dry_run (content : string) (files : gmap path string) (g : path) :
  files !! f = Some content ->
  is_Some (store_after f dry_run content files !! g) <-> is_Some (files !! g).
Proof.
  intros Hf. destruct (decide (g = f)) as [->|Hg].
  - destruct (store_after_same f dry_run content files Hf) as [c' ->]. rewrite Hf.
    split; by eexists.
  - by rewrite store_after_other.
Qed.

Lemma run_files_cons dry_run verbose f rest modified total w content :
  fs w !! f = Some content ->
  run_files dry_run verbose (f :: rest) modified total w
  = run_files dry_run verbose rest
      (if changed f content then modified + 1 else modified) (total + 1)
      (World (store_after f dry_run content (fs w))
             (out w ++ report f dry_run verbose content)).
Proof.
  intros Hf. simpl. unfold bind at 1. by rewrite (process_skill_run _ _ _ _ _ _ _ _ Hf).
Qed.

(** The loop over files that exist returns, has counted each of them,
    and has kept the set of files. *)
Lemma run_files_total dry_run verbose skill_files modified total w :
  (forall f, f ∈ skill_files -> is_Some (fs w !! f)) ->
  exists modified' w',
    run_files dry_run verbose skill_files modified total w
    = Ok ((modified', total + length skill_files), w')
    /\ modified <= modified' <= modified + length skill_files
    /\ (forall g, is_Some (fs w' !! g) <-> is_Some (fs w !! g))
    /\ (forall g, g ∉ skill_files -> fs w' !! g = fs w !! g)
    /\ (dry_run = true -> fs w' = fs w).
Proof.
  revert modified total w.
  induction skill_files as [|f rest IH]; intros modified total w Hex.
  - exists modified, w. simpl. unfold ret. rewrite Nat.add_0_r.
    split; [done |]. split; [lia |]. done.
  - destruct (Hex f) as [content Hf]; [by left |].
    rewrite (run_files_cons _ _ _ _ _ _ _ _ Hf).
    destruct (IH (if changed f content then modified + 1 else modified) (total + 1)
                (World (store_after f dry_run content (fs w))
                       (out w ++ report f dry_run verbose content)))
      as (m' & w' & -> & Hm & Hdom & Hother & Hdry).
    { intros g Hg. simpl. apply store_after_is_Some; [done |]. apply Hex. by right. }
    simpl in *. exists m', w'. split; [do 3 f_equal; lia |].
    split; [destruct (changed f content); lia |]. split; [| split].
    + intros g. rewrite Hdom. by apply store_after_is_Some.
    + intros g Hg. apply not_elem_of_cons in Hg as [Hgf Hg].
      rewrite Hother by done. by apply store_after_other.
    + intros ->. rewrite Hdry by done. apply store_after_dry.
Qed.

(** On distinct files, the counters of a preview and those of a write
    run agree. *)
Lemma run_files_dry_wet verbose1 verbose2 skill_files modified total w1 w2 r1 r2 w1' w2' :
  NoDup skill_files ->
  (forall f, f ∈ skill_files -> is_Some (fs w1 !! f)) ->
  (forall f, f ∈ skill_files -> fs w1 !! f = fs w2 !! f) ->
  run_files true verbose1 skill_files modified total w1 = Ok (r1, w1') ->
  run_files false verbose2 skill_files modified total w2 = Ok (r2, w2') ->
  r1 = r2.
Proof.
  revert modified total w1 w2.
  induction skill_files as [|f rest IH]; intros modified total w1 w2 Hnd Hex Hsame.
  - simpl. unfold ret. congruence.
  - apply NoDup_cons in Hnd as [Hf Hnd].
    destruct (Hex f) as [content Hf1]; [by left |].
    assert (fs w2 !! f = Some content) as Hf2 by (rewrite <- Hsame; [done | by left]).
    rewrite (run_files_cons _ _ _ _ _ _ _ _ Hf1), (run_files_cons _ _ _ _ _ _ _ _ Hf2).
    apply IH; [done | |]; simpl.
    + intros g Hg. rewrite store_after_dry. apply Hex. by right.
    + intros g Hg. rewrite store_after_dry, store_after_other.
      * apply Hsame. by right.
      * intros ->. done.
Qed.

Lemma main_run argv w :
  let dry_run := list_contains "--dry-run" argv in
  let verbose := list_contains "--verbose" argv in
  let w0 := if dry_run
            then World (fs w) (out w ++ ["DRY RUN " +:+ chr 0x2014
                                          +:+ " no files will be modified" +:+ nl])
            else w in
  exists modified w',
    run_files dry_run verbose (discovered (fs w)) 0 0 w0
    = Ok ((modified, length (discovered (fs w))), w')
    /\ modified <= length (discovered (fs w))
    /\ (dry_run = true -> fs w' = fs w)
    /\ main argv w
       = Ok (0%Z, World (fs w')
                    (out w' ++ [summary_line (length (discovered (fs w))) modified])).
Proof.
  intros dry_run verbose w0.
  assert (fs w0 = fs w) as Hfs by (unfold w0; by destruct dry_run).
  destruct (run_files_total dry_run verbose (discovered (fs w)) 0 0 w0)
    as (m & w' & Hrun & Hm & _ & _ & Hdry).
  { intros f Hf. rewrite Hfs. by apply elem_of_discovered in Hf as [? _]. }
  exists m, w'. split; [done |]. split; [lia |].
  split; [intros H; rewrite Hdry by done; done |].
  unfold main. fold dry_run verbose. unfold bind at 1.
  assert (when dry_run (print ("DRY RUN " +:+ chr 0x2014 +:+ " no files will be modified" +:+ nl)) w
          = Ok (tt, w0)) as ->.
  { unfold w0, when, print, ret. by destruct dry_run. }
  unfold bind at 1, sorted_glob at 1. unfold bind at 1, sorted_glob at 1.
  unfold bind at 1, sorted_glob at 1. unfold bind at 1.
  fold (glob_files "personas" (fs w0)). fold (glob_files "agents" (fs w0)).
  fold (glob_files "workflows" (fs w0)). fold (discovered (fs w0)).
  rewrite Hfs, Hrun. done.
Qed.

Lemma startswith_length s p : Py.startswith s p = true -> String.length p <= String.length s.
Proof. intros H%startswith_inv. rewrite H, str_length_app. lia. Qed.

Lemma contains_length sub s : Py.contains sub s = true -> String.length sub <= String.length s.
Proof.
  unfold Py.contains. destruct (Py.find sub 0 s) as [i|] eqn:E; [| done]. intros _.
  apply find_sound in E as (_ & [_ H%startswith_length] & _).
  rewrite length_drop in H. lia.
Qed.

(** A text that begins with the start marker and has no end marker
    from offset 4 on does not pass the skip test. *)
Lemma unterminated_not_skipped content :
  Py.startswith content START_MARKER = true ->
  Py.find END_MARKER 4 content = None ->
  skip_check content = false.
Proof.
  intros Hs Hnone. unfold skip_check.
  destruct (Py.find END_MARKER 0 content) as [i|] eqn:E; [| done].
  apply find_sound in E as (_ & Hocc & _).
  destruct (decide (4 <= i)) as [Hi|Hi].
  - rewrite find_None in Hnone. by destruct (Hnone i Hi).
  - destruct (Py.contains METADATA_KEY (Py.take i content)) eqn:C; [| done].
    apply contains_length in C. rewrite length_take in C. simpl in C. lia.
Qed.

(** C7, as amended. A document on which the parser raises is never
    written and never counted as modified: the run returns [False],
    the loop goes on with the remaining files having counted the file
    in the total only, and main returns 0.  The run prints the error
    line whenever the skip test of line 123 does not hold, which is
    always so for a document that begins with the start marker but
    lacks the end marker; when the skip test holds, the run reports a
    skip (in verbose mode) or nothing, and no error. *)
Theorem parse_failure_isolated f dry_run verbose w content rest modified total :
  fs w !! f = Some content ->
  (exists e, parse_frontmatter content = Raise e) ->
  exists printed,
    process_skill f dry_run verbose w = Ok (false, World (fs w) (out w ++ printed))
    /\ run_files dry_run verbose (f :: rest) modified total w
       = run_files dry_run verbose rest modified (total + 1) (World (fs w) (out w ++ printed))
    /\ (skip_check content = false -> printed = [error_report f])
    /\ (skip_check content = true -> printed = if verbose then [skip_report f] else [])
    /\ (Py.startswith content START_MARKER = true -> printed = [error_report f])
    /\ (forall argv w0, exists w', main argv w0 = Ok (0%Z, w')).
Proof.
  intros Hf [e He].
  assert (changed f content = false
          /\ store_after f dry_run content (fs w) = fs w
          /\ (skip_check content = false -> report f dry_run verbose content = [error_report f])
          /\ (skip_check content = true ->
              report f dry_run verbose content = if verbose then [skip_report f] else []))
    as (Hch & Hst & Herr & Hskip).
  { unfold changed, store_after, report, outcome_of. rewrite He.
    destruct (skip_check content); done. }
  exists (report f dry_run verbose content).
  split; [by rewrite (process_skill_run _ _ _ _ _ _ _ _ Hf), Hch, Hst |].
  split; [by rewrite (run_files_cons _ _ _ _ _ _ _ _ Hf), Hch, Hst |].
  split; [done |]. split; [done |]. split.
  - intros Hs. apply Herr. apply unterminated_not_skipped; [done |].
    apply parse_frontmatter_Raise in He as [[He _]|(_ & He & _)]; [congruence | done].
  - intros argv w0. destruct (main_run argv w0) as (m & w' & _ & _ & _ & ->). by eexists.
Qed.

(** C9. With the dry-run flag a run of [process_skill] leaves the file
    store as it was, whatever the document; it returns what the run in
    write mode returns and prints what that run prints, the last
    [DRY-RUN] line standing for the [OK] line; and main with
    [--dry-run] leaves the file store as it was and prints the summary
    line, with the same two counts, that main prints without it. *)
Theorem dry_run_frame f verbose w :
  (forall b w', process_skill f true verbose w = Ok (b, w') -> fs w' = fs w)
  /\ (forall content, fs w !! f = Some content ->
      exists common files_wet,
        process_skill f true verbose w
        = Ok (changed f content,
              World (fs w)
                (out w ++ common
                 ++ (if verbose && changed f content then [dry_run_report f] else [])))
        /\ process_skill f false verbose w
           = Ok (changed f content,
                 World files_wet
                   (out w ++ common
                    ++ (if verbose && changed f content then [ok_report f] else []))))
  /\ (forall argv_dry argv_wet,
        list_contains "--dry-run" argv_dry = true ->
        list_contains "--dry-run" argv_wet = false ->
        exists w1 w2 total modified,
          main argv_dry w = Ok (0%Z, w1)
          /\ main argv_wet w = Ok (0%Z, w2)
          /\ fs w1 = fs w
          /\ last (out w1) = Some (summary_line total modified)
          /\ last (out w2) = Some (summary_line total modified)).
Proof.
  split; [| split].
  - intros b w' Hrun. destruct (fs w !! f) as [content|] eqn:Hf.
    + rewrite (process_skill_run _ _ _ _ _ _ _ _ Hf) in Hrun.
      injection Hrun as _ <-. simpl. apply store_after_dry.
    + by rewrite process_skill_missing in Hrun.
  - intros content Hf.
    exists (match outcome_of f content with
            | Skipped => if verbose then [skip_report f] else []
            | Unparsed => [error_report f]
            | Edited _ => warnings f content
            end), (store_after f false content (fs w)).
    rewrite !(process_skill_run _ _ _ _ _ _ _ _ Hf), store_after_dry.
    unfold report, changed.
    destruct (outcome_of f content), verbose; simpl; rewrite ?app_nil_r; done.
  - intros argv_dry argv_wet Hdry Hwet.
    destruct (main_run argv_dry w) as (m1 & w1 & Hrun1 & _ & Hfs1 & Hmain1).
    destruct (main_run argv_wet w) as (m2 & w2 & Hrun2 & _ & _ & Hmain2).
    rewrite Hdry in Hrun1, Hfs1. rewrite Hwet in Hrun2.
    assert ((m1, length (discovered (fs w))) = (m2, length (discovered (fs w)))) as [= <-].
    { eapply run_files_dry_wet; [apply NoDup_discovered | | | exact Hrun1 | exact Hrun2].
      - intros g Hg. simpl. by apply elem_of_discovered in Hg as [? _].
      - done. }
    eexists _, _, (length (discovered (fs w))), m1.
    split; [exact Hmain1 |]. split; [exact Hmain2 |]. simpl.
    split; [by apply Hfs1 |]. by rewrite !last_snoc.
Qed.

Lemma store_after_wet f content (files : gmap path string) :
  files !! f = Some content ->
  store_after f false content files !! f = Some (next_content f content).
Proof.
  intros Hf. unfold store_after, next_content.
  destruct (outcome_of f content); [done | done | apply lookup_insert_eq].
Qed.

Lemma run_n_spec n f verbose w content :
  fs w !! f = Some content ->
  exists w',
    run_n n f verbose w = Ok (tt, w')
    /\ fs w' !! f = Some (Nat.iter n (next_content f) content).
Proof.
  revert w content. induction n as [|n IH]; intros w content Hf.
  - by exists w.
  - simpl run_n. unfold bind at 1. rewrite (process_skill_run _ _ _ _ _ _ _ _ Hf).
    destruct (IH (World (store_after f false content (fs w))
                    (out w ++ report f false verbose content))
                 (next_content f content)) as (w' & -> & Hw').
    { by apply store_after_wet. }
    exists w'. split; [done |]. by rewrite Nat.iter_succ_r.
Qed.

(** C8, as amended. Any number of runs in write mode leaves as many
    lines [user-invocable: true] in a document outside the persona
    category as it had, and as many in any document whose block already
    has a line that defines the field.  A persona document that the
    first run edits and whose block defines no such field has exactly
    one more after one run, after two, and after any number of them.  A
    document that the first run does not edit, because the skip test
    holds or the parser raises, stays as it is. *)
Theorem flag_injection_scoping f verbose w content n :
  fs w !! f = Some content ->
  exists w' content',
    run_n n f verbose w = Ok (tt, w')
    /\ fs w' !! f = Some content'
    /\ (is_persona_of f = false -> flag_count content' = flag_count content)
    /\ (is_persona_of f = true ->
        changed f content = true ->
        (forall fm_text body raw,
            parse_frontmatter content = Ok (fm_text, body, raw) ->
            defines_flag (Py.split nl fm_text) = false) ->
        0 < n ->
        flag_count content' = flag_count content + 1)
    /\ ((forall fm_text body raw,
            parse_frontmatter content = Ok (fm_text, body, raw) ->
            defines_flag (Py.split nl fm_text) = true) ->
        flag_count content' = flag_count content)
    /\ (changed f content = false -> content' = content).
Proof.
  intros Hf. destruct (run_n_spec n f verbose w content Hf) as (w' & Hrun & Hw').
  exists w', (Nat.iter n (next_content f) content).
  split; [done |]. split; [done |]. split; [| split; [| split]].
  - intros Hp. clear Hrun Hw'. induction n as [|n IH]; simpl; [done |].
    by rewrite next_content_not_persona.
  - intros Hp Hch Hundef Hn. destruct n as [|n]; [lia |].
    rewrite Nat.iter_succ_r. unfold changed in Hch. unfold next_content at 2.
    destruct (outcome_cases f content)
      as [[E _]|[(E & _)|(fm & body & raw & E & _ & Hparse)]]; rewrite E in Hch |- *;
      [done | done |].
    assert (flag_lines (Py.split nl fm) (is_persona_of f) = [FLAG_LINE]) as Hflag.
    { unfold flag_lines. by rewrite Hp, (Hundef _ _ _ Hparse). }
    destruct (iter_next_content_defined f (new_content_of f fm body) n) as [-> _].
    { apply (flag_defined_edited f content fm body raw Hparse). by right. }
    rewrite (flag_count_edited f content fm body raw Hparse), Hflag. done.
  - intros Hdef. by apply iter_next_content_defined.
  - intros Hch. clear Hrun Hw'.
    assert (next_content f content = content) as Hfix.
    { unfold next_content. unfold changed in Hch. by destruct (outcome_of f content). }
    induction n as [|n IH]; simpl; [done |]. by rewrite IH.
Qed.

(** X1. Two runs on a document whose block does not begin with a
    marker line: the second one skips the file and writes nothing. *)
Lemma second_run_unmodified f verbose w content :
  fs w !! f = Some content ->
  (forall fm_text body raw,
      parse_frontmatter content = Ok (fm_text, body, raw) ->
      head (Py.split nl fm_text) <> Some "---") ->
  exists b w1 w2,
    process_skill f false verbose w = Ok (b, w1)
    /\ process_skill f false verbose w1 = Ok (false, w2)
    /\ fs w2 = fs w1.
Proof.
  intros Hf Hhead.
  set (w1 := World (store_after f false content (fs w))
                   (out w ++ report f false verbose content)).
  exists (changed f content), w1,
    (World (fs w1) (out w1 ++ report f false verbose (next_content f content))).
  split; [by rewrite (process_skill_run _ _ _ _ _ _ _ _ Hf) |].
  assert (fs w1 !! f = Some (next_content f content)) as Hnext
    by (by apply store_after_wet).
  assert (changed f (next_content f content) = false
          /\ store_after f false (next_content f content) (fs w1) = fs w1) as [Hch Hst].
  { unfold changed, store_after at 1, next_content.
    destruct (outcome_cases f content)
      as [[E Hs]|[(E & Hs & msg & Hp)|(fm & body & raw & E & _ & Hparse)]]; rewrite E.
    - by rewrite E.
    - by rewrite E.
    - unfold outcome_of at 1 2.
      by rewrite (edited_skip f content fm body raw Hparse (Hhead _ _ _ Hparse)). }
  by rewrite (process_skill_run _ _ _ _ _ _ _ _ Hnext), Hch, Hst.
Qed.

(** C1 fails on the code: a document whose block begins with a
    marker line.  The skip test cuts the text at the first end marker
    from offset 0, which here overlaps the start marker, and so never
    sees the metadata line that the first run wrote; the parser, which
    searches from offset 4, accepts the text again and the second run
    writes a second metadata line and reports a change. *)
Theorem second_run_edits_marker_first_block verbose printed :
  let w := World {[ skill_file := doc_marker_first ]} printed in
  exists w1 w2,
    process_skill skill_file false verbose w = Ok (true, w1)
    /\ fs w1 !! skill_file = Some doc_marker_first_once
    /\ Py.contains METADATA_KEY doc_marker_first_once = true
    /\ skip_check doc_marker_first_once = false
    /\ process_skill skill_file false verbose w1 = Ok (true, w2)
    /\ fs w2 !! skill_file = Some doc_marker_first_twice
    /\ doc_marker_first_twice <> doc_marker_first_once.
Proof.
  intros w.
  assert (outcome_of skill_file doc_marker_first = Edited doc_marker_first_once) as H1
    by (vm_compute; reflexivity).
  assert (outcome_of skill_file doc_marker_first_once = Edited doc_marker_first_twice) as H2
    by (vm_compute; reflexivity).
  assert (fs w !! skill_file = Some doc_marker_first) as Hf by apply lookup_singleton_eq.
  set (w1 := World (<[skill_file := doc_marker_first_once]> (fs w))
                   (out w ++ report skill_file false verbose doc_marker_first)).
  assert (fs w1 !! skill_file = Some doc_marker_first_once) as Hf1 by apply lookup_insert_eq.
  exists w1, (World (<[skill_file := doc_marker_first_twice]> (fs w1))
                (out w1 ++ report skill_file false verbose doc_marker_first_once)).
  split; [| split; [done | split; [by vm_compute | split; [by vm_compute | split; [| split]]]]].
  - rewrite (process_skill_run _ _ _ _ _ _ _ _ Hf). unfold changed, store_after. by rewrite H1.
  - rewrite (process_skill_run _ _ _ _ _ _ _ _ Hf1). unfold changed, store_after. by rewrite H2.
  - apply lookup_insert_eq.
  - intros E. apply (f_equal String.length) in E. vm_compute in E. lia.
Qed.

End Runs.

(** ** The parameters on texts whose whitespace is ASCII *)

Example ascii_parameters_ex :
  ascii_re_search_name doc_plain_fm = Some "my-skill"
  /\ ascii_re_search_name ("title: x" +:+ nl +:+ "name:   " +:+ nl +:+ " My Skill ") = Some "My Skill "
  /\ ascii_re_search_name "description: name: x" = None
  /\ ascii_strip "  My Skill  " = "My Skill"
  /\ ascii_openclaw_name_match "my-skill" = true
  /\ ascii_openclaw_name_match "My Skill" = false
  /\ ascii_openclaw_name_match "-x" = false
  /\ ascii_openclaw_name_match EmptyString = false.
Proof. repeat split; reflexivity. Qed.


(** ** The claims on concrete documents *)

Lemma parse_failure_isolated_witness :
  exists printed,
    process_skill_ascii skill_file false false (world_of doc_unterminated_marker)
    = Ok (false, World (fs (world_of doc_unterminated_marker))
                   (out (world_of doc_unterminated_marker) ++ printed))
    /\ printed = [error_report skill_file]
    /\ run_files ascii_re_search_name ascii_strip ascii_openclaw_name_match
         false false [skill_file] 0 0 (world_of doc_unterminated_marker)
       = Ok ((0, 1), World (fs (world_of doc_unterminated_marker))
                       (out (world_of doc_unterminated_marker) ++ printed)).
Proof.
  destruct (parse_failure_isolated ascii_re_search_name ascii_strip ascii_openclaw_name_match
              skill_file false false (world_of doc_unterminated_marker)
              doc_unterminated_marker [] 0 0)
    as (printed & Hrun & Hloop & _ & _ & Hstart & _).
  - apply lookup_singleton_eq.
  - eexists. reflexivity.
  - exists printed. split; [exact Hrun |]. split; [apply Hstart; reflexivity | exact Hloop].
Defined.

(** C7, as stated, fails on a text that has no start marker and passes
    the skip test: the parser raises on it, and the run prints no error
    line; it prints nothing, or the skip line in verbose mode. *)
Lemma parse_failure_without_error_report :
  parse_frontmatter doc_no_start = Raise (ValueError "No YAML frontmatter found")
  /\ process_skill_ascii skill_file false false (world_of doc_no_start)
     = Ok (false, World {[ skill_file := doc_no_start ]} [])
  /\ process_skill_ascii skill_file false true (world_of doc_no_start)
     = Ok (false, World {[ skill_file := doc_no_start ]} [skip_report skill_file])
  /\ skip_report skill_file <> error_report skill_file.
Proof.
  assert (fs (world_of doc_no_start) !! skill_file = Some doc_no_start) as Hf
    by apply lookup_singleton_eq.
  assert (outcome_of skill_file doc_no_start = Skipped) as Ho by (vm_compute; reflexivity).
  split; [reflexivity |]. split; [| split].
  - rewrite (process_skill_run _ _ _ _ _ _ _ _ Hf).
    unfold changed, store_after, report. by rewrite Ho.
  - rewrite (process_skill_run _ _ _ _ _ _ _ _ Hf).
    unfold changed, store_after, report. by rewrite Ho.
  - intros E. apply (f_equal (String.get 2)) in E. vm_compute in E. congruence.
Qed.

Lemma flag_injection_scoping_witness :
  exists w' content',
    run_n_ascii 2 skill_file true scenario_world = Ok (tt, w')
    /\ fs w' !! skill_file = Some content'
    /\ flag_count content' = flag_count doc_plain + 1.
Proof.
  destruct (flag_injection_scoping ascii_re_search_name ascii_strip ascii_openclaw_name_match
              skill_file true scenario_world doc_plain 2)
    as (w' & content' & Hrun & Hw' & _ & Hpersona & _).
  - apply lookup_singleton_eq.
  - exists w', content'. split; [exact Hrun |]. split; [exact Hw' |].
    apply Hpersona.
    + reflexivity.
    + reflexivity.
    + intros fm_text body raw H. rewrite doc_plain_parse in H.
      injection H as <- _ _. reflexivity.
    + lia.
Defined.

(** C8, as stated, fails on a persona document that already has a
    metadata line: no line of its block defines the flag, and after two
    runs in write mode the file is as it was, with no flag line. *)
Lemma persona_with_metadata_gets_no_flag :
  is_persona_of skill_file = true
  /\ parse_frontmatter doc_with_metadata
     = Ok ("description: d" +:+ nl +:+ "metadata: {}", "body" +:+ nl,
           Py.take 36 doc_with_metadata)
  /\ defines_flag ["description: d"; "metadata: {}"] = false
  /\ Py.split nl ("description: d" +:+ nl +:+ "metadata: {}") = ["description: d"; "metadata: {}"]
  /\ flag_count doc_with_metadata = 0
  /\ exists w',
       run_n_ascii 2 skill_file false (world_of doc_with_metadata) = Ok (tt, w')
       /\ fs w' !! skill_file = Some doc_with_metadata.
Proof.
  split; [reflexivity |]. split; [reflexivity |]. split; [reflexivity |].
  split; [reflexivity |]. split; [reflexivity |].
  destruct (run_n_spec ascii_re_search_name ascii_strip ascii_openclaw_name_match
              2 skill_file false (world_of doc_with_metadata) doc_with_metadata)
    as (w' & Hrun & Hw'); [apply lookup_singleton_eq |].
  exists w'. split; [exact Hrun |]. rewrite Hw'. reflexivity.
Qed.

Lemma dry_run_frame_witness :
  exists w1 w2 total modified,
    main_ascii ["add-openclaw-metadata.py"; "--dry-run"] scenario_world = Ok (0%Z, w1)
    /\ main_ascii ["add-openclaw-metadata.py"] scenario_world = Ok (0%Z, w2)
    /\ fs w1 = fs scenario_world
    /\ last (out w1) = Some (summary_line total modified)
    /\ last (out w2) = Some (summary_line total modified).
Proof.
  apply (proj2 (proj2 (dry_run_frame ascii_re_search_name ascii_strip
                         ascii_openclaw_name_match skill_file false scenario_world))).
  - reflexivity.
  - reflexivity.
Defined.

Example main_ex :
  exists w',
    main_ascii ["add-openclaw-metadata.py"; "--verbose"] scenario_world = Ok (0%Z, w')
    /\ fs w' !! skill_file = Some (doc_plain_edited (chr 0x1f527))
    /\ out w' = [ok_report skill_file; summary_line 1 1].
Proof. eexists. split; [vm_compute; reflexivity |]. split; vm_compute; reflexivity. Qed.

Example split_ex :
  Py.split "ab" "xabyabab" = ["x"; "y"; EmptyString; EmptyString]
  /\ Py.split nl ("a" +:+ nl +:+ nl +:+ "b") = ["a"; EmptyString; "b"]
  /\ Py.split nl EmptyString = [EmptyString]
  /\ Py.find "b" 2 "abcb" = Some 3
  /\ Py.slice 1 3 "abcd" = "bc"
  /\ Py.strip_char "x" "xxaxbxx" = "axb"
  /\ Py.join ", " ["a"; "b"; "c"] = "a, b, c"
  /\ Py.str_of_nat 0 = "0" /\ Py.str_of_nat 120 = "120".
Proof. repeat split; reflexivity. Qed.

Example emoji_ex :
  get_emoji "personas/domain/gamedev/unity" "unity" = chr 0x1f3ae
  /\ get_emoji "personas/api/x" "database-ops" = chr 0x1f5c4 +:+ chr 0xfe0f
  /\ get_emoji "misc" "misc" = FALLBACK_EMOJI
  /\ String.length (chr 0x1f3ae) = 4
  /\ json_dumps (JArr []) = "[]"
  /\ escape (String "001" (String LF "a")) = String BACKSLASH "u0001" +:+ String BACKSLASH "na".
Proof. repeat split; reflexivity. Qed.

(** * Further properties *)

(** ** The parser and the documents it accepts *)

(** X3. Assembling a block and a body between the markers and parsing
    the result gives the block and the body back exactly when no line
    of the block past the first is a marker line. *)
Theorem parse_frontmatter_of_assembled fm_text body :
  parse_frontmatter (START_MARKER +:+ fm_text +:+ END_MARKER +:+ body)
  = Ok (fm_text, body, START_MARKER +:+ fm_text +:+ END_MARKER)
  <-> Forall (fun l => l <> "---") (tail (Py.split nl fm_text)).
Proof.
  split.
  - apply parsed_block_lines.
  - intros Hno.
    pose proof (parse_reassemble (Py.split nl fm_text) body (split_ne nl 0 fm_text)
                  (split_nl_Forall fm_text) Hno) as H.
    unfold reassemble in H. by rewrite join_split_nl in H.
Qed.

Lemma parse_frontmatter_of_assembled_witness :
  parse_frontmatter (START_MARKER +:+ ("---" +:+ nl +:+ "a: b") +:+ END_MARKER +:+ "text")
  = Ok ("---" +:+ nl +:+ "a: b", "text",
        START_MARKER +:+ ("---" +:+ nl +:+ "a: b") +:+ END_MARKER).
Proof.
  apply (proj2 (parse_frontmatter_of_assembled ("---" +:+ nl +:+ "a: b") "text")).
  vm_compute. by repeat constructor.
Defined.

Lemma drop_app_le n s t :
  n <= String.length s -> Py.drop n (s +:+ t) = Py.drop n s +:+ t.
Proof.
  revert s; induction n as [|n IH]; intros [|c s]; simpl; try done; try lia.
  intros; apply IH; lia.
Qed.

Lemma startswith_app_r s t p : Py.startswith s p = true -> Py.startswith (s +:+ t) p = true.
Proof.
  intros H%startswith_inv. rewrite H, str_app_assoc. apply startswith_app.
Qed.

Lemma occurs_at_app_l sub j s t : occurs_at sub j s -> occurs_at sub j (s +:+ t).
Proof.
  intros [Hj Hocc]. split; [rewrite str_length_app; lia |].
  rewrite drop_app_le by done. by apply startswith_app_r.
Qed.

(** X4. The block the parser returns is the shortest one: whatever way
    the text splits into start marker, block, end marker and body, the
    returned block is no longer than that block, and the end marker
    does not occur in it. *)
Theorem parse_frontmatter_shortest_block content fm_text body raw :
  parse_frontmatter content = Ok (fm_text, body, raw) ->
  (forall fm_text' body',
      content = START_MARKER +:+ fm_text' +:+ END_MARKER +:+ body' ->
      String.length fm_text <= String.length fm_text')
  /\ Py.contains END_MARKER fm_text = false
  /\ String.length content = 4 + String.length fm_text + 5 + String.length body.
Proof.
  intros Hparse. destruct (parse_frontmatter_shape _ _ _ _ Hparse) as (Hc & _ & Hfind).
  apply find_sound in Hfind as (_ & _ & Hmin). split; [| split].
  - intros fm' body' E.
    destruct (decide (String.length fm_text <= String.length fm')) as [|Hlt]; [done |].
    exfalso. apply (Hmin (String.length START_MARKER + String.length fm')); [simpl; lia |].
    rewrite E. apply occurs_at_app_plus. apply occurs_at_app_length.
  - unfold Py.contains. destruct (Py.find END_MARKER 0 fm_text) as [j|] eqn:F; [| done].
    exfalso. apply find_sound in F as (_ & Hocc & _).
    assert (j + 5 <= String.length fm_text) as Hlen.
    { destruct Hocc as [_ H%startswith_length]. rewrite length_drop in H. simpl in H. lia. }
    apply (Hmin (String.length START_MARKER + j)); [simpl; lia |].
    rewrite Hc. apply occurs_at_app_plus. by apply occurs_at_app_l.
  - rewrite Hc at 1. rewrite !str_length_app. simpl. lia.
Qed.

Lemma parse_frontmatter_shortest_block_witness :
  (forall fm_text' body',
      doc_plain = START_MARKER +:+ fm_text' +:+ END_MARKER +:+ body' ->
      String.length doc_plain_fm <= String.length fm_text')
  /\ Py.contains END_MARKER doc_plain_fm = false
  /\ String.length doc_plain = 4 + String.length doc_plain_fm + 5 + String.length doc_plain_body.
Proof.
  apply (parse_frontmatter_shortest_block doc_plain doc_plain_fm doc_plain_body
           (Py.take 49 doc_plain)).
  reflexivity.
Defined.

(** ** The skip test, on a document that parses *)

Lemma startswith_cons c d p s :
  Py.startswith (String d s) (String c p) = if Ascii.eqb c d then Py.startswith s p else false.
Proof. done. Qed.

(** A key with no newline is a prefix of a line followed by a newline
    exactly when it is a prefix of the line. *)
Lemma startswith_line key l r :
  lf_free key = true -> Py.startswith (l +:+ nl +:+ r) key = Py.startswith l key.
Proof.
  revert l. induction key as [|k key IH]; intros l Hkey; [by destruct l |].
  simpl in Hkey. apply andb_prop in Hkey as [Hk Hkey].
  destruct l as [|c l].
  - change (EmptyString +:+ nl +:+ r) with (String LF r). rewrite startswith_cons.
    rewrite Ascii.eqb_sym. by destruct (Ascii.eqb LF k).
  - change (String c l +:+ nl +:+ r) with (String c (l +:+ nl +:+ r)).
    rewrite !startswith_cons, IH by done. done.
Qed.

Lemma contains_iff sub s : Py.contains sub s = true <-> exists j, occurs_at sub j s.
Proof.
  unfold Py.contains. split.
  - destruct (Py.find sub 0 s) as [j|] eqn:F; [| done]. intros _.
    apply find_sound in F as (_ & Hocc & _). by exists j.
  - intros [j Hocc]. destruct (find_complete sub 0 s j) as (i & -> & _); [lia | done | done].
Qed.

Lemma drop_all s : Py.drop (String.length s) s = EmptyString.
Proof. by induction s. Qed.

(** A newline followed by a key occurs in lines joined by newlines
    exactly when a line past the first begins with the key. *)
Lemma key_in_lines key x L :
  lf_free key = true -> lf_free x = true -> Forall (fun l => lf_free l = true) L ->
  (exists j, occurs_at (nl +:+ key) j (Py.join nl (x :: L)))
  <-> Exists (fun l => Py.startswith l key = true) L.
Proof.
  intros Hkey. revert x. induction L as [|y L IH]; intros x Hx HL.
  - simpl Py.join. rewrite Exists_nil. split; [| done]. intros [j Hocc].
    destruct (decide (j < String.length x)) as [Hj|Hj].
    + rewrite <- (str_app_nil_r x) in Hocc. by apply not_occurs_in_line in Hocc.
    + destruct Hocc as [Hle Hs]. assert (j = String.length x) as -> by lia.
      by rewrite drop_all in Hs.
  - inversion HL as [|? ? Hy HL']; subst. rewrite join_cons, Exists_cons.
    assert (Py.startswith (Py.join nl (y :: L)) key = Py.startswith y key) as Hhead.
    { destruct L as [|z L]; [done |]. rewrite join_cons. by apply startswith_line. }
    split.
    + intros [j Hocc]. destruct (Nat.lt_trichotomy j (String.length x)) as [Hlt|[->|Hgt]].
      * by apply not_occurs_in_line in Hocc.
      * left. destruct Hocc as [_ Hs]. rewrite drop_app_length in Hs.
        change (Py.startswith (nl +:+ Py.join nl (y :: L)) (nl +:+ key))
          with (Py.startswith (Py.join nl (y :: L)) key) in Hs. by rewrite <- Hhead.
      * right. apply (IH y); [done | done |]. exists (j - String.length x - 1).
        replace j with (String.length (x +:+ nl) + (j - String.length x - 1)) in Hocc
          by (rewrite str_length_app; change (String.length nl) with 1; lia).
        rewrite <- str_app_assoc in Hocc. by apply occurs_at_app_plus in Hocc.
    + intros [Hy'|Hex].
      * exists (String.length x). split; [rewrite str_length_app; lia |].
        rewrite drop_app_length.
        change (Py.startswith (nl +:+ Py.join nl (y :: L)) (nl +:+ key))
          with (Py.startswith (Py.join nl (y :: L)) key). by rewrite Hhead.
      * apply (IH y) in Hex as [j Hocc]; [| done | done].
        exists (String.length (x +:+ nl) + j).
        rewrite <- str_app_assoc. by apply occurs_at_app_plus.
Qed.

(** X5. On a document that parses and whose block does not begin with
    a marker line, the skip test of line 123 holds exactly when some
    line of the block begins with [metadata:]. *)
Theorem skip_check_iff_metadata_line content fm_text body raw :
  parse_frontmatter content = Ok (fm_text, body, raw) ->
  head (Py.split nl fm_text) <> Some "---" ->
  already_has_metadata content = Ok true
  <-> Exists (fun l => Py.startswith l "metadata:" = true) (Py.split nl fm_text).
Proof.
  intros Hparse Hhead. rewrite already_has_metadata_eq.
  pose proof (parsed_block_lines _ _ _ _ Hparse) as Htail.
  apply parse_frontmatter_shape in Hparse as (-> & _ & _).
  set (L := Py.split nl fm_text) in *.
  assert (START_MARKER +:+ fm_text = Py.join nl ("---" :: L)) as EL.
  { rewrite join_cons_ne by apply split_ne. unfold L. by rewrite join_split_nl. }
  assert (Forall (fun l => l <> "---") L) as Hno.
  { destruct L as [|l ls]; [constructor |]. constructor; [| done]. simpl in Hhead. congruence. }
  assert (skip_check (START_MARKER +:+ fm_text +:+ END_MARKER +:+ body)
          = Py.contains METADATA_KEY (Py.join nl ("---" :: L))) as Hskip.
  { unfold skip_check. rewrite <- str_app_assoc, EL.
    assert (Py.find END_MARKER 0 (Py.join nl ("---" :: L) +:+ END_MARKER +:+ body)
            = Some (String.length (Py.join nl ("---" :: L)))) as ->.
    { apply find_Some. split; [lia |]. split; [apply occurs_at_app_length |].
      intros j [_ Hj]. apply no_marker_before_end; [done | | done | done].
      constructor; [done | apply split_nl_Forall]. }
    by rewrite take_app_length. }
  rewrite Hskip. split.
  - intros [= H]. apply contains_iff in H.
    apply (key_in_lines "metadata:" "---" L); [done | done | apply split_nl_Forall | done].
  - intros H. f_equal. apply contains_iff.
    apply (key_in_lines "metadata:" "---" L); [done | done | apply split_nl_Forall | done].
Qed.

Lemma skip_check_iff_metadata_line_witness :
  already_has_metadata doc_with_metadata = Ok true
  <-> Exists (fun l => Py.startswith l "metadata:" = true)
        (Py.split nl ("description: d" +:+ nl +:+ "metadata: {}")).
Proof.
  apply (skip_check_iff_metadata_line doc_with_metadata
           ("description: d" +:+ nl +:+ "metadata: {}") ("body" +:+ nl)
           (Py.take 36 doc_with_metadata)).
  - reflexivity.
  - vm_compute. congruence.
Defined.

(** ** One run, further *)

Lemma count_metadata_app l1 l2 :
  count_metadata (l1 ++ l2) = count_metadata l1 + count_metadata l2.
Proof. unfold count_metadata. by rewrite filter_app, length_app. Qed.

(** The spliced block has one more metadata line than the block, and
    holds the lines of the block in their order. *)
Lemma new_lines_metadata f fm_text :
  count_metadata (new_lines_of f fm_text) = count_metadata (Py.split nl fm_text) + 1
  /\ Py.split nl fm_text `sublist_of` new_lines_of f fm_text.
Proof.
  unfold new_lines_of.
  destruct (splice_lines_shape (Py.split nl fm_text)
              (build_metadata_line (skill_path_of f) (skill_name_of f)) (is_persona_of f))
    as (A & B & E & _ & ->).
  destruct (build_metadata_line_facts (skill_path_of f) (skill_name_of f))
    as (_ & Hkey & _).
  split.
  - rewrite E at 2. rewrite !count_metadata_app.
    change (?m :: ?l ++ B) with ([m] ++ l ++ B). rewrite !count_metadata_app.
    unfold count_metadata at 2. rewrite filter_cons_True by done.
    destruct (flag_lines_cases (Py.split nl fm_text) (is_persona_of f)) as [[-> _]|[-> _]];
      simpl; change (count_metadata [FLAG_LINE]) with 0 || change (count_metadata []) with 0;
      lia.
  - rewrite E at 1. apply sublist_app; [done |]. apply sublist_cons.
    by apply sublist_inserts_l.
Qed.

(** On a document that the skip test lets through, the edited document
    does not change under a further run unless its block begins with a
    marker line. *)
Lemma next_content_settled f content :
  (forall fm_text body raw,
      parse_frontmatter content = Ok (fm_text, body, raw) ->
      head (Py.split nl fm_text) <> Some "---") ->
  changed f (next_content f content) = false
  /\ next_content f (next_content f content) = next_content f content.
Proof.
  intros Hhead.
  assert (changed f (next_content f content) = false) as Hch.
  { unfold changed, next_content.
    destruct (outcome_cases f content)
      as [[E Hs]|[(E & Hs & msg & Hp)|(fm & body & raw & E & _ & Hparse)]]; rewrite E.
    - by rewrite E.
    - by rewrite E.
    - unfold outcome_of.
      by rewrite (edited_skip f content fm body raw Hparse (Hhead _ _ _ Hparse)). }
  split; [done |]. unfold changed in Hch. unfold next_content at 1.
  by destruct (outcome_of f (next_content f content)).
Qed.

Section FurtherRuns.

Variable re_search_name : string -> option string.
Variable py_strip : string -> string.
Variable openclaw_name_match : string -> bool.

Local Abbreviation process_skill := (process_skill re_search_name py_strip openclaw_name_match).
Local Abbreviation run_files := (run_files re_search_name py_strip openclaw_name_match).
Local Abbreviation main := (main re_search_name py_strip openclaw_name_match).
Local Abbreviation report := (report re_search_name py_strip openclaw_name_match).

Implicit Types (f g : path) (dry_run verbose : bool) (content : string) (w : world).
Implicit Types (modified total : nat) (skill_files rest : list path).

(** What a run in write mode that reports a change has done. *)
Lemma edit_run_inv f verbose w w' content :
  fs w !! f = Some content ->
  process_skill f false verbose w = Ok (true, w') ->
  exists fm_text body raw,
    parse_frontmatter content = Ok (fm_text, body, raw)
    /\ fs w' !! f = Some (new_content_of f fm_text body)
    /\ parse_frontmatter (new_content_of f fm_text body)
       = Ok (Py.join nl (new_lines_of f fm_text), body,
             START_MARKER +:+ Py.join nl (new_lines_of f fm_text) +:+ END_MARKER)
    /\ Py.split nl (Py.join nl (new_lines_of f fm_text)) = new_lines_of f fm_text.
Proof.
  intros Hf Hrun. rewrite (process_skill_run _ _ _ _ _ _ _ _ Hf) in Hrun.
  injection Hrun as Hch <-. unfold changed in Hch. simpl.
  destruct (outcome_cases f content)
    as [[E _]|[(E & _)|(fm & body & raw & E & _ & Hparse)]]; rewrite E in Hch; try done.
  exists fm, body, raw. split; [done |].
  split; [unfold store_after; rewrite E; apply lookup_insert_eq |].
  by apply (edited_parses f content fm body raw).
Qed.

(** X2. After a run in write mode that reports a change, the file
    parses again: its body is the body it had, its block is the block
    it had with the lines the splice inserts, the lines of the old block
    are kept in their order, and exactly one more line begins with
    [metadata:]. *)
Theorem edited_file_parses f verbose w w' content :
  fs w !! f = Some content ->
  process_skill f false verbose w = Ok (true, w') ->
  exists fm_text body raw new_content fm_text' raw',
    parse_frontmatter content = Ok (fm_text, body, raw)
    /\ fs w' !! f = Some new_content
    /\ parse_frontmatter new_content = Ok (fm_text', body, raw')
    /\ Py.split nl fm_text'
       = splice_lines (Py.split nl fm_text)
           (build_metadata_line (path_str (path_parent f)) (path_name (path_parent f)))
           (Py.startswith (path_str (path_parent f)) "personas/")
    /\ Py.split nl fm_text `sublist_of` Py.split nl fm_text'
    /\ count_metadata (Py.split nl fm_text') = count_metadata (Py.split nl fm_text) + 1.
Proof.
  intros Hf Hrun.
  destruct (edit_run_inv f verbose w w' content Hf Hrun)
    as (fm & body & raw & Hparse & Hw' & Hparse' & Hsplit).
  destruct (new_lines_metadata f fm) as [Hcount Hsub].
  exists fm, body, raw. eexists _, _, _.
  split; [done |]. split; [done |]. split; [exact Hparse' |].
  rewrite Hsplit. done.
Qed.

(** X14. After a run in write mode that reports a change, the block of
    a persona document has a line that defines [user-invocable], and
    the block of any other document has one exactly when it had one. *)
Theorem edited_block_flag f verbose w w' content :
  fs w !! f = Some content ->
  process_skill f false verbose w = Ok (true, w') ->
  exists fm_text body raw new_content fm_text' raw',
    parse_frontmatter content = Ok (fm_text, body, raw)
    /\ fs w' !! f = Some new_content
    /\ parse_frontmatter new_content = Ok (fm_text', body, raw')
    /\ defines_flag (Py.split nl fm_text')
       = (Py.startswith (path_str (path_parent f)) "personas/"
          || defines_flag (Py.split nl fm_text)).
Proof.
  intros Hf Hrun.
  destruct (edit_run_inv f verbose w w' content Hf Hrun)
    as (fm & body & raw & Hparse & Hw' & Hparse' & Hsplit).
  exists fm, body, raw. eexists _, _, _.
  split; [done |]. split; [done |]. split; [exact Hparse' |].
  rewrite Hsplit. unfold new_lines_of.
  destruct (splice_lines_shape (Py.split nl fm)
              (build_metadata_line (skill_path_of f) (skill_name_of f)) (is_persona_of f))
    as (A & B & E & _ & ->).
  destruct (build_metadata_line_facts (skill_path_of f) (skill_name_of f))
    as (_ & _ & _ & _ & Hm & _).
  change (?m :: ?l ++ B) with ([m] ++ l ++ B). rewrite !defines_flag_app.
  change (defines_flag [build_metadata_line (skill_path_of f) (skill_name_of f)])
    with (Py.startswith (build_metadata_line (skill_path_of f) (skill_name_of f)) FLAG_KEY
          || false).
  rewrite Hm. fold (skill_path_of f). fold (is_persona_of f).
  rewrite E. unfold flag_lines. rewrite !defines_flag_app.
  destruct (is_persona_of f), (defines_flag A), (defines_flag B); done.
Qed.

(** X6. A run of [process_skill] that returns touches no file but its
    own, creates and deletes none, only adds to what was printed, and
    leaves the store as it was when it reports no change. *)
Theorem process_skill_frame f dry_run verbose w b w' :
  process_skill f dry_run verbose w = Ok (b, w') ->
  (forall g, g <> f -> fs w' !! g = fs w !! g)
  /\ (forall g, is_Some (fs w' !! g) <-> is_Some (fs w !! g))
  /\ (exists printed, out w' = out w ++ printed)
  /\ (b = false -> fs w' = fs w).
Proof.
  intros Hrun. destruct (fs w !! f) as [content|] eqn:Hf;
    [| by rewrite process_skill_missing in Hrun].
  rewrite (process_skill_run _ _ _ _ _ _ _ _ Hf) in Hrun. injection Hrun as <- <-. simpl.
  split; [intros g Hg; by apply store_after_other |].
  split; [intros g; by apply store_after_is_Some |].
  split; [by eexists |].
  unfold changed, store_after. by destruct (outcome_of f content).
Qed.

End FurtherRuns.

Lemma second_run_unmodified_witness :
  exists b w1 w2,
    process_skill_ascii skill_file false true scenario_world = Ok (b, w1)
    /\ process_skill_ascii skill_file false true w1 = Ok (false, w2)
    /\ fs w2 = fs w1.
Proof.
  apply (second_run_unmodified ascii_re_search_name ascii_strip ascii_openclaw_name_match
           skill_file true scenario_world doc_plain).
  - apply lookup_singleton_eq.
  - intros fm_text body raw H. rewrite doc_plain_parse in H.
    injection H as <- _ _. vm_compute. congruence.
Defined.

Lemma scenario_run :
  process_skill_ascii skill_file false true scenario_world = Ok (true, scenario_world_edited).
Proof.
  rewrite (process_skill_run _ _ _ _ _ _ _ doc_plain); [| apply lookup_singleton_eq].
  unfold changed, store_after, report.
  rewrite (doc_plain_outcome skill_file eq_refl). reflexivity.
Qed.

Lemma edited_file_parses_witness :
  exists fm_text body raw new_content fm_text' raw',
    parse_frontmatter doc_plain = Ok (fm_text, body, raw)
    /\ fs scenario_world_edited !! skill_file = Some new_content
    /\ parse_frontmatter new_content = Ok (fm_text', body, raw')
    /\ Py.split nl fm_text'
       = splice_lines (Py.split nl fm_text)
           (build_metadata_line (path_str (path_parent skill_file))
              (path_name (path_parent skill_file)))
           (Py.startswith (path_str (path_parent skill_file)) "personas/")
    /\ Py.split nl fm_text `sublist_of` Py.split nl fm_text'
    /\ count_metadata (Py.split nl fm_text') = count_metadata (Py.split nl fm_text) + 1.
Proof.
  apply (edited_file_parses ascii_re_search_name ascii_strip ascii_openclaw_name_match
           skill_file true scenario_world scenario_world_edited doc_plain).
  - apply lookup_singleton_eq.
  - apply scenario_run.
Defined.

Lemma edited_block_flag_witness :
  exists fm_text body raw new_content fm_text' raw',
    parse_frontmatter doc_plain = Ok (fm_text, body, raw)
    /\ fs scenario_world_edited !! skill_file = Some new_content
    /\ parse_frontmatter new_content = Ok (fm_text', body, raw')
    /\ defines_flag (Py.split nl fm_text')
       = (Py.startswith (path_str (path_parent skill_file)) "personas/"
          || defines_flag (Py.split nl fm_text)).
Proof.
  apply (edited_block_flag ascii_re_search_name ascii_strip ascii_openclaw_name_match
           skill_file true scenario_world scenario_world_edited doc_plain).
  - apply lookup_singleton_eq.
  - apply scenario_run.
Defined.

Lemma process_skill_frame_witness :
  (forall g, g <> skill_file -> fs scenario_world_edited !! g = fs scenario_world !! g)
  /\ (forall g, is_Some (fs scenario_world_edited !! g) <-> is_Some (fs scenario_world !! g))
  /\ (exists printed, out scenario_world_edited = out scenario_world ++ printed)
  /\ (true = false -> fs scenario_world_edited = fs scenario_world).
Proof.
  apply (process_skill_frame ascii_re_search_name ascii_strip ascii_openclaw_name_match
           skill_file false true scenario_world true scenario_world_edited).
  apply scenario_run.
Defined.

(** X10. The warning on the name is not fatal and the verbosity is
    only a matter of printing: whatever the search for the name line
    and the identifier test answer, and whatever the verbose flags, two
    runs on the same store in the same mode return the same value and
    leave the same store, or raise the same exception. *)
Theorem edit_independent_of_name_check
    (re1 re2 : string -> option string) (strip1 strip2 : string -> string)
    (match1 match2 : string -> bool) (f : path) (dry_run verbose1 verbose2 : bool) (w : world) :
  match process_skill re1 strip1 match1 f dry_run verbose1 w,
        process_skill re2 strip2 match2 f dry_run verbose2 w with
  | Ok (b1, w1), Ok (b2, w2) => b1 = b2 /\ fs w1 = fs w2
  | Raise e1, Raise e2 => e1 = e2
  | _, _ => False
  end.
Proof.
  destruct (fs w !! f) as [content|] eqn:Hf.
  - by rewrite !(process_skill_run _ _ _ _ _ _ _ _ Hf).
  - by rewrite !process_skill_missing.
Qed.

(** ** The batch, further *)

Lemma glob_match_iff root (p : path) :
  glob_match root p = true <-> exists rest, p = root :: rest /\ last rest = Some "SKILL.md".
Proof.
  destruct p as [|r rest]; simpl.
  - split; [done | by intros (? & [=] & _)].
  - rewrite andb_true_iff, String.eqb_eq, bool_decide_eq_true. split.
    + intros [-> H]. by exists rest.
    + intros (rest' & [= -> ->] & H). done.
Qed.

Lemma is_skill_file_iff (p : path) :
  is_skill_file p <->
  glob_match "personas" p = true \/ glob_match "agents" p = true
  \/ glob_match "workflows" p = true.
Proof.
  rewrite !glob_match_iff. unfold is_skill_file, ROOTS. split.
  - intros (root & rest & -> & Hroot & Hlast).
    repeat (apply elem_of_cons in Hroot as [->|Hroot]; [eauto 6 |]).
    by apply elem_of_nil in Hroot.
  - intros [(rest & -> & Hl)|[(rest & -> & Hl)|(rest & -> & Hl)]];
      eexists _, rest; (split; [done |]); (split; [| done]).
    + by left.
    + right; by left.
    + do 2 right; by left.
Qed.

Lemma elem_of_discovered_iff (files : gmap path string) (p : path) :
  p ∈ discovered files <-> is_Some (files !! p) /\ is_skill_file p.
Proof.
  unfold discovered.
  rewrite !elem_of_app, !py_sorted_Permutation, !elem_of_glob_files, is_skill_file_iff.
  tauto.
Qed.

Lemma filter_ext_elem_of {A} (P Q : A -> Prop) `{!forall x, Decision (P x)}
    `{!forall x, Decision (Q x)} (l : list A) :
  (forall x, x ∈ l -> P x <-> Q x) -> filter P l = filter Q l.
Proof.
  induction l as [|x l IH]; intros Hext; [done |].
  rewrite !filter_cons. rewrite IH by (intros y Hy; apply Hext; by right).
  destruct (decide (P x)) as [HP|HP], (decide (Q x)) as [HQ|HQ]; try done.
  - destruct HQ. apply Hext; [by left | done].
  - destruct HP. apply Hext; [by left | done].
Qed.

Lemma filter_none {A} (P : A -> Prop) `{!forall x, Decision (P x)} (l : list A) :
  (forall x, x ∈ l -> ~ P x) -> filter P l = [].
Proof.
  induction l as [|x l IH]; intros Hno; [done |].
  rewrite filter_cons, decide_False by (apply Hno; by left).
  apply IH. intros y Hy. apply Hno. by right.
Qed.

Section FurtherBatch.

Variable re_search_name : string -> option string.
Variable py_strip : string -> string.
Variable openclaw_name_match : string -> bool.

Local Abbreviation run_files := (run_files re_search_name py_strip openclaw_name_match).
Local Abbreviation main := (main re_search_name py_strip openclaw_name_match).

Implicit Types (f g : path) (dry_run verbose : bool) (content : string) (w : world).
Implicit Types (modified total : nat) (skill_files rest : list path).

(** The loop over distinct files that exist: the counters it returns
    and the store it leaves, from the store it starts with. *)
Lemma run_files_store dry_run verbose skill_files modified total w :
  NoDup skill_files ->
  (forall f, f ∈ skill_files -> is_Some (fs w !! f)) ->
  exists w',
    run_files dry_run verbose skill_files modified total w
    = Ok ((modified + length (filter (fun f => would_change (fs w) f = true) skill_files),
           total + length skill_files), w')
    /\ (forall f content, f ∈ skill_files -> fs w !! f = Some content ->
        fs w' !! f = Some (if dry_run then content else next_content f content))
    /\ (forall g, g ∉ skill_files -> fs w' !! g = fs w !! g).
Proof.
  revert modified total w.
  induction skill_files as [|f rest IH]; intros modified total w Hnd Hex.
  - exists w. simpl. unfold ret. rewrite !Nat.add_0_r.
    split; [done |]. split; [| done]. intros f c Hf. by apply elem_of_nil in Hf.
  - apply NoDup_cons in Hnd as [Hfr Hnd].
    destruct (Hex f) as [content Hf]; [by left |].
    rewrite (run_files_cons _ _ _ _ _ _ _ _ _ _ _ Hf).
    set (w1 := World (store_after f dry_run content (fs w)) _).
    assert (forall g, g ∈ rest -> fs w1 !! g = fs w !! g) as Hsame.
    { intros g Hg. simpl. apply store_after_other. intros ->. done. }
    destruct (IH (if changed f content then modified + 1 else modified) (total + 1) w1 Hnd)
      as (w' & -> & Hstore & Hother).
    { intros g Hg. rewrite Hsame by done. apply Hex. by right. }
    exists w'. split; [| split].
    + do 2 f_equal. f_equal; [| simpl; lia].
      rewrite (filter_ext_elem_of (fun g => would_change (fs w1) g = true)
                 (fun g => would_change (fs w) g = true) rest).
      2:{ intros g Hg. unfold would_change. by rewrite Hsame. }
      rewrite filter_cons.
      assert (would_change (fs w) f = changed f content) as ->
        by (unfold would_change; by rewrite Hf).
      destruct (changed f content).
      * rewrite decide_True by done. simpl. lia.
      * rewrite decide_False by done. lia.
    + intros g c [->|Hg]%elem_of_cons Hc.
      * rewrite Hother by done. rewrite Hf in Hc. injection Hc as <-. simpl.
        destruct dry_run; [by rewrite store_after_dry | by apply store_after_wet].
      * apply Hstore; [done |]. by rewrite Hsame.
    + intros g [Hgf Hg]%not_elem_of_cons. rewrite Hother by done. simpl.
      by apply store_after_other.
Qed.

(** What main returns and the store it leaves, from the store it
    starts with. *)
Lemma main_store argv w :
  exists w',
    main argv w = Ok (0%Z, w')
    /\ last (out w')
       = Some (summary_line (length (discovered (fs w)))
                 (length (filter (fun f => would_change (fs w) f = true) (discovered (fs w)))))
    /\ (forall f content, f ∈ discovered (fs w) -> fs w !! f = Some content ->
        fs w' !! f
        = Some (if list_contains "--dry-run" argv then content else next_content f content))
    /\ (forall g, g ∉ discovered (fs w) -> fs w' !! g = fs w !! g).
Proof.
  destruct (main_run re_search_name py_strip openclaw_name_match argv w)
    as (m & w1 & Hrun & _ & _ & Hmain).
  set (w0 := if list_contains "--dry-run" argv then _ else w) in Hrun.
  assert (fs w0 = fs w) as Hfs by (unfold w0; by destruct (list_contains "--dry-run" argv)).
  destruct (run_files_store (list_contains "--dry-run" argv) (list_contains "--verbose" argv)
              (discovered (fs w)) 0 0 w0) as (w1' & Hrun' & Hstore & Hother).
  { apply NoDup_discovered. }
  { intros f Hf. rewrite Hfs. by apply elem_of_discovered in Hf as [? _]. }
  rewrite Hrun in Hrun'. injection Hrun' as -> <-. rewrite Hfs in *.
  eexists. split; [exact Hmain |]. simpl. split; [by rewrite last_snoc |]. done.
Qed.


(** X8. The summary main prints: the total is the number of files it
    discovered, and the modified count is the number of those on whose
    text, as it was before main, a run reports a change, that is those
    that the skip test lets through and that parse. *)
Theorem main_summary_counts argv w :
  exists w',
    main argv w = Ok (0%Z, w')
    /\ last (out w')
       = Some (summary_line (length (discovered (fs w)))
                 (length (filter (fun f => would_change (fs w) f = true) (discovered (fs w)))))
    /\ (forall f, would_change (fs w) f = true <->
                  exists content r,
                    fs w !! f = Some content
                    /\ already_has_metadata content = Ok false
                    /\ parse_frontmatter content = Ok r).
Proof.
  destruct (main_store argv w) as (w' & Hmain & Hlast & _).
  exists w'. split; [done |]. split; [done |].
  intros f. unfold would_change. destruct (fs w !! f) as [c|] eqn:Hc.
  - unfold changed.
    destruct (outcome_cases f c)
      as [[E Hs]|[(E & Hs & msg & Hp)|(fm & body & raw & E & Hs & Hparse)]]; rewrite E.
    + split; [done |]. intros (c' & r & [= <-] & Hskip & _).
      rewrite already_has_metadata_eq in Hskip. congruence.
    + split; [done |]. intros (c' & r & [= <-] & _ & Hr). congruence.
    + split; [| done]. intros _. exists c. eexists.
      rewrite already_has_metadata_eq, Hs. eauto.
  - split; [done |]. by intros (c' & r & [=] & _).
Qed.

(** X9. main is idempotent on a tree none of whose discovered
    documents has a block that begins with a marker line: after main in
    write mode, a second main finds the same number of files, modifies
    none of them and leaves every file as it is. *)
Theorem main_twice argv1 argv2 w :
  list_contains "--dry-run" argv1 = false ->
  (forall f content fm_text body raw,
      f ∈ discovered (fs w) -> fs w !! f = Some content ->
      parse_frontmatter content = Ok (fm_text, body, raw) ->
      head (Py.split nl fm_text) <> Some "---") ->
  exists w1 w2,
    main argv1 w = Ok (0%Z, w1)
    /\ main argv2 w1 = Ok (0%Z, w2)
    /\ fs w2 = fs w1
    /\ last (out w2) = Some (summary_line (length (discovered (fs w))) 0).
Proof.
  intros Hwet Hhead.
  destruct (main_store argv1 w) as (w1 & Hmain1 & _ & Hstore1 & Hother1).
  destruct (main_store argv2 w1) as (w2 & Hmain2 & Hlast2 & Hstore2 & Hother2).
  rewrite Hwet in Hstore1.
  assert (forall g, g ∈ discovered (fs w1) <-> g ∈ discovered (fs w)) as Hdisc.
  { intros g. rewrite !elem_of_discovered_iff.
    destruct (decide (g ∈ discovered (fs w))) as [Hg|Hg].
    - pose proof Hg as [[c Hc] Hs]%elem_of_discovered_iff.
      rewrite (Hstore1 g c Hg Hc), Hc. split; intros [_ ?]; (split; [by eexists | done]).
    - by rewrite Hother1. }
  assert (forall g, g ∈ discovered (fs w1) ->
            exists c, fs w !! g = Some c /\ fs w1 !! g = Some (next_content g c)
                      /\ changed g (next_content g c) = false
                      /\ next_content g (next_content g c) = next_content g c) as Hsettled.
  { intros g Hg%Hdisc. pose proof Hg as [[c Hc] _]%elem_of_discovered_iff.
    exists c. split; [done |]. split; [by apply Hstore1 |].
    apply next_content_settled. intros fm body raw. by apply (Hhead g c). }
  exists w1, w2. split; [done |]. split; [done |]. split.
  - apply map_eq. intros g.
    destruct (decide (g ∈ discovered (fs w1))) as [Hg|Hg]; [| by apply Hother2].
    destruct (Hsettled g Hg) as (c & _ & Hc1 & _ & Hfix).
    rewrite (Hstore2 g _ Hg Hc1), Hc1.
    destruct (list_contains "--dry-run" argv2); by rewrite ?Hfix.
  - rewrite Hlast2. f_equal. f_equal.
    + apply Permutation_length. apply NoDup_Permutation; [apply NoDup_discovered.. | done].
    + assert (filter (fun f => would_change (fs w1) f = true) (discovered (fs w1)) = []) as ->;
        [| done].
      apply filter_none. intros g Hg.
      destruct (Hsettled g Hg) as (c & _ & Hc1 & Hch & _).
      unfold would_change. rewrite Hc1, Hch. done.
Qed.

End FurtherBatch.

Lemma main_twice_witness :
  exists w1 w2,
    main_ascii [] scenario_world = Ok (0%Z, w1)
    /\ main_ascii ["--verbose"] w1 = Ok (0%Z, w2)
    /\ fs w2 = fs w1
    /\ last (out w2) = Some (summary_line (length (discovered (fs scenario_world))) 0).
Proof.
  apply (main_twice ascii_re_search_name ascii_strip ascii_openclaw_name_match
           [] ["--verbose"] scenario_world).
  - reflexivity.
  - intros f content fm_text body raw _ Hf Hparse.
    change (fs scenario_world) with ({[ skill_file := doc_plain ]} : gmap path string) in Hf.
    apply lookup_singleton_Some in Hf as [_ <-].
    rewrite doc_plain_parse in Hparse. injection Hparse as <- _ _.
    vm_compute. congruence.
Defined.

(** ** The lookup of the emoji, further *)

Lemma first_prefix_match_some_elem skill_path (items : dict) emoji :
  first_prefix_match skill_path items = Some emoji ->
  exists k, (k, emoji) ∈ items /\ Py.startswith skill_path k = true.
Proof.
  induction items as [|[k0 v0] items IH]; simpl; [done |].
  destruct (Py.startswith skill_path k0) eqn:E.
  - intros [= ->]. exists k0. split; [by left | done].
  - intros (k & Hin & Hk)%IH. exists k. split; [by right | done].
Qed.

Lemma get_emoji_in_fallback (overrides emoji_map : dict) skill_path skill_name :
  dict_get overrides skill_name = None ->
  (forall k v, (k, v) ∈ emoji_map -> Py.startswith skill_path k = false) ->
  get_emoji_in overrides emoji_map skill_path skill_name = FALLBACK_EMOJI.
Proof.
  intros Ho Hnone. unfold get_emoji_in. rewrite Ho.
  assert (first_prefix_match skill_path (py_sorted longer_key_first emoji_map) = None) as ->;
    [| done].
  apply first_prefix_match_None. intros k v Hin%elem_of_py_sorted. by apply (Hnone k v).
Qed.

(** X11. The emoji does not depend on the order in which the table
    lists its prefixes: two tables with the same items, whose keys are
    distinct as in a dict, give the same emoji for every path and name,
    so the way the stable sort breaks ties between prefixes of equal
    length is never seen. *)
Theorem get_emoji_in_order_irrelevant (overrides emoji_map emoji_map' : dict)
    (skill_path skill_name : string) :
  NoDup (map fst emoji_map) ->
  emoji_map ≡ₚ emoji_map' ->
  get_emoji_in overrides emoji_map skill_path skill_name
  = get_emoji_in overrides emoji_map' skill_path skill_name.
Proof.
  intros Hnd Hperm.
  assert (forall x, x ∈ emoji_map <-> x ∈ emoji_map') as Hmem
    by (intros x; by rewrite Hperm).
  clear Hperm.
  destruct (dict_get overrides skill_name) as [v|] eqn:Ho.
  { unfold get_emoji_in. by rewrite Ho. }
  destruct (first_prefix_match skill_path emoji_map) as [e|] eqn:E.
  - apply first_prefix_match_some_elem in E as (k & Hin & Hk).
    destruct (get_emoji_in_longest overrides emoji_map skill_path skill_name Ho)
      as (k1 & Hin1 & Hs1 & Hmax1); [by exists k, e |].
    destruct (get_emoji_in_longest overrides emoji_map' skill_path skill_name Ho)
      as (k2 & Hin2 & Hs2 & Hmax2); [exists k, e; split; [by apply Hmem | done] |].
    apply Hmem in Hin2.
    apply (longest_prefix_value_unique emoji_map skill_path k1 _ k2 _); try done.
    intros k' v' Hin'. apply (Hmax2 k' v'). by apply Hmem.
  - rewrite first_prefix_match_None in E.
    rewrite !get_emoji_in_fallback; try done.
    intros k v Hin. apply (E k v). by apply Hmem.
Qed.

Lemma get_emoji_in_order_irrelevant_witness :
  get_emoji_in API_EMOJI_OVERRIDES EMOJI_MAP "personas/engineering/my-skill" "my-skill"
  = get_emoji_in API_EMOJI_OVERRIDES (reverse EMOJI_MAP) "personas/engineering/my-skill"
      "my-skill".
Proof.
  apply (get_emoji_in_order_irrelevant API_EMOJI_OVERRIDES EMOJI_MAP (reverse EMOJI_MAP)).
  - apply (bool_decide_unpack _). vm_compute. reflexivity.
  - symmetry. apply reverse_Permutation.
Defined.

(** ** The metadata line, further *)

(** X12. For every path and name the metadata line is one line of
    text: the key [metadata:], then the JSON object with the emoji of
    the document and the three systems, in which no character of the
    emoji had to be escaped; it is none of the lines the splice looks
    for (a marker, the anchor, the flag). *)
Theorem build_metadata_line_one_line (skill_path skill_name : string) :
  let m := build_metadata_line skill_path skill_name in
  m = metadata_line_text (get_emoji skill_path skill_name)
  /\ get_emoji skill_path skill_name
     ∈ map snd API_EMOJI_OVERRIDES ++ map snd EMOJI_MAP ++ [FALLBACK_EMOJI]
  /\ Py.split nl m = [m]
  /\ Py.startswith m "metadata: {" = true
  /\ m <> "---" /\ is_anchor m = false /\ Py.startswith m FLAG_KEY = false.
Proof.
  cbv zeta.
  destruct (build_metadata_line_facts skill_path skill_name)
    as (Hlf & _ & Hm & _ & Hflag & Hanchor).
  split; [apply build_metadata_line_text |].
  split; [apply get_emoji_in_range |].
  split; [by apply split_nl_lf_free |].
  split; [by rewrite build_metadata_line_text | done].
Qed.

(** ** The discovery, further *)











